(** * MatMul CPU kernel (onnxruntime/core/providers/cpu/math/matmul.cc)

    A shallow embedding of the three entry points of the MatMul kernel:
    the generic [MatMul<T>::Compute], and the float specialisation's
    [PrePack], [UseCachedPrePackedWeight] and [Compute].

    Calls into collaborators (the kernel context, the shape helper, the
    plain matrix multiply and the batched GEMM) are recorded in a call log,
    so that a statement can speak about what was requested from whom and
    with which arguments. *)

From Stdlib Require Import ZArith List Bool Lia.
Import ListNotations.
Open Scope Z_scope.

(** ** Machine integers *)

Module MachineInt.

(** [size_t] on the 64-bit targets of the kernel. *)
Definition size_t_modulus : Z := 2 ^ 64.

(** [static_cast<size_t>(x)]: reduction modulo 2^64. *)
Definition static_cast_size_t (x : Z) : Z := x mod size_t_modulus.

(** [static_cast<int>(x)]: the low 32 bits, read as two's complement. *)
Definition static_cast_int (x : Z) : Z := (x + 2 ^ 31) mod 2 ^ 32 - 2 ^ 31.

(** A value that went through [int] and is then stored in a [size_t]. *)
Definition size_t_of_int (x : Z) : Z := static_cast_size_t x.

End MachineInt.
Import MachineInt.

(** ** Status values *)

Inductive ErrorKind :=
| ShapeMismatch
| BroadcastIncompatible
| UnsupportedType
| AllocationFailure.

Inductive Status :=
| OK
| Fail (e : ErrorKind).

Definition IsOK (s : Status) : bool :=
  match s with OK => true | Fail _ => false end.

(** ** Shapes, tensors, pointers *)

Definition TensorShape := list Z.

Definition NumDimensions (s : TensorShape) : Z := Z.of_nat (length s).

(** Modelled from the spec: [TensorShape::Size] is declared outside this
    file; the spec calls it the shape's element count, the product of the
    dimension sizes (1 for rank 0). *)
Definition Size (s : TensorShape) : Z := fold_right Z.mul 1 s.

(** A typed data pointer, counted in elements; [nullptr] is address 0. *)
Definition Ptr := Z.
Definition nullptr : Ptr := 0.

Record Tensor := mkTensor {
  Shape : TensorShape;
  DataRaw : Ptr
}.

(** ** Owning and aliasing buffers *)

(** [AllocatorPtr] is a shared pointer to an allocator, possibly null. *)
Definition AllocatorPtr := option nat.

Record BufferDeleter := mkBufferDeleter { alloc_ : AllocatorPtr }.

Record BufferUniquePtr := mkBufferUniquePtr {
  get : Ptr;
  get_deleter : BufferDeleter
}.

Definition null_buffer : BufferUniquePtr :=
  mkBufferUniquePtr nullptr (mkBufferDeleter None).

(** [bool(p)] of a unique pointer. *)
Definition is_set (p : BufferUniquePtr) : bool := negb (get p =? nullptr).

(** [std::move(p)]: the value moved out and the state left behind. *)
Definition std_move (p : BufferUniquePtr) : BufferUniquePtr * BufferUniquePtr :=
  (p, null_buffer).

(** Modelled from the spec: the deleter is declared outside this file; the
    spec describes a null deleter as the convention for a borrowed buffer,
    whose destruction is a no-op.  The result lists the (allocator, address)
    pairs handed back to an allocator when the pointer is destroyed. *)
Definition destroy (p : BufferUniquePtr) : list (nat * Ptr) :=
  if is_set p then
    match alloc_ (get_deleter p) with
    | Some a => [(a, get p)]
    | None => []
    end
  else [].

Record PrepackedWeight := mkPrepackedWeight {
  buffers_ : list BufferUniquePtr;
  shapes_ : list TensorShape;
  weights_sizes_ : list Z;
  is_filled_ : bool
}.

(** [v.push_back(x)] *)
Definition push_back {A} (v : list A) (x : A) : list A := v ++ [x].

(** ** The shape helper's result *)

(** Modelled from the spec: [MatMulComputeHelper] is declared outside this
    file.  The spec's resolved descriptor carries M, N, K and the output
    shape, and its offset table is three sequences of equal length, one
    entry per batch; the table is kept as a list of rows so that the three
    columns have the same length by construction. *)
Record MatMulComputeHelper := mkHelper {
  M : Z;
  N : Z;
  K : Z;
  OutputShape : TensorShape;
  offsets : list (Z * Z * Z)
}.

Definition LeftOffsets (h : MatMulComputeHelper) : list Z :=
  map (fun r => fst (fst r)) (offsets h).
Definition RightOffsets (h : MatMulComputeHelper) : list Z :=
  map (fun r => snd (fst r)) (offsets h).
Definition OutputOffsets (h : MatMulComputeHelper) : list Z :=
  map snd (offsets h).

(** [v.size()] and [v[i]] of a vector of [size_t]. *)
Definition size (v : list Z) : nat := length v.
Definition at_ (v : list Z) (i : nat) : Z := nth i v 0.

Inductive Resolved :=
| ResolveError (e : ErrorKind)
| ResolveOK (h : MatMulComputeHelper).

(** ** Kernel context and call log *)

Record OpKernelContext := mkContext {
  (** [ctx->Input<Tensor>(i)], null when the input is absent *)
  Input : nat -> option Tensor;
  (** data pointer of the tensor [ctx->Output(i, shape)] allocates *)
  output_buffer : nat -> TensorShape -> Ptr;
  (** [ctx->GetOperatorThreadPool()] *)
  GetOperatorThreadPool : nat
}.

(** [ctx->Output(i, shape)]: the tensor has the requested shape. *)
Definition Output (ctx : OpKernelContext) (i : nat) (s : TensorShape) : Tensor :=
  mkTensor s (output_buffer ctx i s).

Inductive CBLAS_TRANSPOSE := CblasNoTrans | CblasTrans.

(** ** The kernel, generic in the element type *)

Section Kernel.

(** The element type ([T] of the template, [float] of the specialisation)
    and its literal zero. *)
Variable elem : Type.
Variable elem_zero : elem.

(** [MatMulComputeHelper::Compute(left, right, transa, transb)], declared in
    matmul_helper.h.  The call with two arguments leaves both flags at
    their default, [false]. *)
Variable helper_Compute : TensorShape -> TensorShape -> bool -> bool -> Resolved.

(** [GemmPackBFp32(alloc, tensor, trans_b, packed_b, b_shape)], declared in
    gemm_matmul_common.h.  The last two arguments are passed by reference:
    the result carries the returned flag and their values after the call. *)
Variable GemmPackBFp32 :
  AllocatorPtr -> Tensor -> bool -> BufferUniquePtr -> TensorShape ->
  bool * BufferUniquePtr * TensorShape.

Record MLAS_SGEMM_DATA_PARAMS := mkParams {
  A : Ptr;
  lda : Z;
  B : Ptr;
  ldb : Z;
  C : Ptr;
  ldc : Z;
  alpha : elem;
  beta : elem;
  BIsPacked : bool
}.

Inductive Call :=
| CallInput (i : nat)
| CallHelperCompute (left right : TensorShape) (transa transb : bool)
| CallOutput (i : nat) (s : TensorShape)
| CallMatMul (m n k : Z) (a b y : Ptr) (thread_pool : nat)
| CallMlasGemmBatch (TransA TransB : CBLAS_TRANSPOSE) (m n k : Z)
    (Data : list MLAS_SGEMM_DATA_PARAMS) (BatchSize : Z) (thread_pool : nat).

(** The result of a [Compute]: [None] stands for the dereference of a null
    input tensor, otherwise the returned status and the calls made. *)
Definition Run := option (Status * list Call).

(** *** [MatMul<T>::Compute], lines 92-127 *)

Definition Compute_generic (ctx : OpKernelContext) : Run :=
  let thread_pool := GetOperatorThreadPool ctx in
  match Input ctx 0, Input ctx 1 with
  | Some a, Some b =>
    let log := [CallInput 0; CallInput 1;
                CallHelperCompute (Shape a) (Shape b) false false] in
    match helper_Compute (Shape a) (Shape b) false false with
    | ResolveError e => Some (Fail e, log)
    | ResolveOK helper =>
      let y := Output ctx 0 (OutputShape helper) in
      let log := log ++ [CallOutput 0 (OutputShape helper)] in
      if Size (Shape y) =? 0 then Some (OK, log)
      else
        let a_data := DataRaw a in
        let b_data := DataRaw b in
        let y_data := DataRaw y in
        let max_len := size (OutputOffsets helper) in
        Some (OK,
              log ++
              map (fun i =>
                     CallMatMul
                       (static_cast_int (M helper))
                       (static_cast_int (N helper))
                       (static_cast_int (K helper))
                       (a_data + at_ (LeftOffsets helper) i)
                       (b_data + at_ (RightOffsets helper) i)
                       (y_data + at_ (OutputOffsets helper) i)
                       thread_pool)
                  (seq 0 max_len))
    end
  | _, _ => None
  end.

(** *** State of a [MatMul<float>] instance *)

Record MatMul_float := mkMatMul {
  trans_a_attr_ : bool;
  trans_b_attr_ : bool;
  alpha_attr_ : elem;
  packed_b_ : BufferUniquePtr;
  b_shape_ : TensorShape
}.

Definition set_packed (k : MatMul_float) (p : BufferUniquePtr) (s : TensorShape)
  : MatMul_float :=
  mkMatMul (trans_a_attr_ k) (trans_b_attr_ k) (alpha_attr_ k) p s.

(** *** [MatMul<float>::PrePack], lines 129-147

    Returns the status, [is_packed], the instance after the call and the
    caching record after the call (if one was supplied). *)

Definition PrePack (k : MatMul_float) (tensor : Tensor) (input_idx : Z)
    (prepacked_weight_for_caching : option PrepackedWeight) (alloc : AllocatorPtr)
  : Status * bool * MatMul_float * option PrepackedWeight :=
  let kernel_owns_prepacked_buffer :=
    match prepacked_weight_for_caching with None => true | Some _ => false end in
  if input_idx =? 1 then
    let '(is_packed, packed_b, b_shape) :=
      GemmPackBFp32 alloc tensor (trans_b_attr_ k) (packed_b_ k) (b_shape_ k) in
    match prepacked_weight_for_caching with
    | Some w =>
      if is_packed && negb kernel_owns_prepacked_buffer then
        let '(moved, left_behind) := std_move packed_b in
        let buffers := push_back (buffers_ w) moved in
        let w' := mkPrepackedWeight
                    buffers
                    (push_back (shapes_ w) b_shape)
                    (push_back (weights_sizes_ w) (static_cast_size_t (Size b_shape)))
                    true in
        let alias := mkBufferUniquePtr (get (hd null_buffer buffers))
                                       (mkBufferDeleter None) in
        (OK, is_packed, set_packed k alias b_shape, Some w')
      else (OK, is_packed, set_packed k packed_b b_shape, Some w)
    | None => (OK, is_packed, set_packed k packed_b b_shape, None)
    end
  else (OK, false, k, prepacked_weight_for_caching).

(** *** [MatMul<float>::UseCachedPrePackedWeight], lines 149-162

    [None] stands for an access to element 0 of an empty vector.  Otherwise
    the status, [read_from_cache], the instance after the call, and what the
    assignment to [packed_b_] handed back to an allocator. *)

Definition UseCachedPrePackedWeight (k : MatMul_float)
    (cached_prepacked_weight : PrepackedWeight) (input_idx : Z)
  : option (Status * bool * MatMul_float * list (nat * Ptr)) :=
  if input_idx =? 1 then
    match buffers_ cached_prepacked_weight with
    | [] => None
    | b0 :: _ =>
      let alias := mkBufferUniquePtr (get b0) (mkBufferDeleter None) in
      match shapes_ cached_prepacked_weight with
      | [] => None
      | s0 :: _ => Some (OK, true, set_packed k alias s0, destroy (packed_b_ k))
      end
    end
  else Some (OK, false, k, []).

(** *** [MatMul<float>::Compute], lines 164-210 *)

Definition Compute_float (k : MatMul_float) (ctx : OpKernelContext) : Run :=
  let thread_pool := GetOperatorThreadPool ctx in
  match Input ctx 0 with
  | None => None
  | Some a =>
    let b := if is_set (packed_b_ k) then None else Input ctx 1 in
    let log := CallInput 0 :: (if is_set (packed_b_ k) then [] else [CallInput 1]) in
    let b_shape := match b with Some t => Shape t | None => b_shape_ k end in
    let trans_a := trans_a_attr_ k && negb (NumDimensions (Shape a) =? 1) in
    let trans_b := trans_b_attr_ k && negb (NumDimensions b_shape =? 1) in
    let log := log ++ [CallHelperCompute (Shape a) b_shape trans_a trans_b] in
    match helper_Compute (Shape a) b_shape trans_a trans_b with
    | ResolveError e => Some (Fail e, log)
    | ResolveOK helper =>
      let y := Output ctx 0 (OutputShape helper) in
      let log := log ++ [CallOutput 0 (OutputShape helper)] in
      if Size (Shape y) =? 0 then Some (OK, log)
      else
        let a_data := DataRaw a in
        let b_data := match b with Some t => DataRaw t | None => nullptr end in
        let y_data := DataRaw y in
        let max_len := size (OutputOffsets helper) in
        let M := static_cast_size_t (M helper) in
        let N := static_cast_size_t (N helper) in
        let K := static_cast_size_t (K helper) in
        let lda := size_t_of_int (static_cast_int (if trans_a then M else K)) in
        let ldb := size_t_of_int (static_cast_int (if trans_b then K else N)) in
        let data :=
          map (fun i =>
                 let is_packed := is_set (packed_b_ k) in
                 mkParams
                   (a_data + at_ (LeftOffsets helper) i)
                   lda
                   (if is_packed then get (packed_b_ k)
                    else b_data + at_ (RightOffsets helper) i)
                   ldb
                   (y_data + at_ (OutputOffsets helper) i)
                   N
                   (alpha_attr_ k)
                   elem_zero
                   is_packed)
              (seq 0 max_len) in
        Some (OK,
              log ++
              [CallMlasGemmBatch
                 (if trans_a then CblasTrans else CblasNoTrans)
                 (if trans_b then CblasTrans else CblasNoTrans)
                 M N K data (Z.of_nat max_len) thread_pool])
    end
  end.

(** *** Names for the parts of [MatMul<float>::Compute] *)

(** The tensor, shape and flags that lines 168-173 derive from the
    instance and the context. *)
Definition raw_B (k : MatMul_float) (ctx : OpKernelContext) : option Tensor :=
  if is_set (packed_b_ k) then None else Input ctx 1.

Definition effective_b_shape (k : MatMul_float) (ctx : OpKernelContext)
  : TensorShape :=
  match raw_B k ctx with Some t => Shape t | None => b_shape_ k end.

Definition effective_trans_a (k : MatMul_float) (a : Tensor) : bool :=
  trans_a_attr_ k && negb (NumDimensions (Shape a) =? 1).

Definition effective_trans_b (k : MatMul_float) (ctx : OpKernelContext) : bool :=
  trans_b_attr_ k && negb (NumDimensions (effective_b_shape k ctx) =? 1).

Definition CBLAS_of (t : bool) : CBLAS_TRANSPOSE :=
  if t then CblasTrans else CblasNoTrans.

(** Two contexts that differ at most in the raw B input. *)
Definition same_but_B (ctx ctx' : OpKernelContext) : Prop :=
  Input ctx' 0 = Input ctx 0 /\
  (forall i s, output_buffer ctx' i s = output_buffer ctx i s) /\
  GetOperatorThreadPool ctx' = GetOperatorThreadPool ctx.

(** Every descriptor of every GEMM batch of a log satisfies [P]. *)
Definition descriptors_all (P : MLAS_SGEMM_DATA_PARAMS -> Prop)
    (log : list Call) : Prop :=
  forall TA TB m n kk data bs tp,
    In (CallMlasGemmBatch TA TB m n kk data bs tp) log -> Forall P data.

(** The descriptor of batch [i], as lines 196-204 fill it in. *)
Definition descriptor (k : MatMul_float) (ctx : OpKernelContext)
    (a : Tensor) (h : MatMulComputeHelper) (i : nat) : MLAS_SGEMM_DATA_PARAMS :=
  let m := static_cast_size_t (M h) in
  let n := static_cast_size_t (N h) in
  let kk := static_cast_size_t (K h) in
  mkParams
    (DataRaw a + at_ (LeftOffsets h) i)
    (size_t_of_int (static_cast_int (if effective_trans_a k a then m else kk)))
    (if is_set (packed_b_ k) then get (packed_b_ k)
     else match raw_B k ctx with Some t => DataRaw t | None => nullptr end
          + at_ (RightOffsets h) i)
    (size_t_of_int (static_cast_int (if effective_trans_b k ctx then kk else n)))
    (output_buffer ctx 0 (OutputShape h) + at_ (OutputOffsets h) i)
    n
    (alpha_attr_ k)
    elem_zero
    (is_set (packed_b_ k)).

Definition gemm_call (k : MatMul_float) (ctx : OpKernelContext)
    (a : Tensor) (h : MatMulComputeHelper) : Call :=
  CallMlasGemmBatch
    (CBLAS_of (effective_trans_a k a)) (CBLAS_of (effective_trans_b k ctx))
    (static_cast_size_t (M h)) (static_cast_size_t (N h)) (static_cast_size_t (K h))
    (map (descriptor k ctx a h) (seq 0 (size (OutputOffsets h))))
    (Z.of_nat (size (OutputOffsets h)))
    (GetOperatorThreadPool ctx).

(** The calls made up to and including shape resolution. *)
Definition resolution_log (k : MatMul_float) (ctx : OpKernelContext)
    (a : Tensor) : list Call :=
  CallInput 0 :: (if is_set (packed_b_ k) then [] else [CallInput 1]) ++
  [CallHelperCompute (Shape a) (effective_b_shape k ctx)
                     (effective_trans_a k a) (effective_trans_b k ctx)].

Definition resolve_float (k : MatMul_float) (ctx : OpKernelContext)
    (a : Tensor) : Resolved :=
  helper_Compute (Shape a) (effective_b_shape k ctx)
                 (effective_trans_a k a) (effective_trans_b k ctx).

(** The tail of a log after shape resolution. *)
Inductive log_tail (k : MatMul_float) (ctx : OpKernelContext) (a : Tensor)
  : Status -> list Call -> Prop :=
| tail_error e :
    resolve_float k ctx a = ResolveError e ->
    log_tail k ctx a (Fail e) []
| tail_empty h :
    resolve_float k ctx a = ResolveOK h ->
    Size (OutputShape h) = 0 ->
    log_tail k ctx a OK [CallOutput 0 (OutputShape h)]
| tail_gemm h :
    resolve_float k ctx a = ResolveOK h ->
    Size (OutputShape h) <> 0 ->
    log_tail k ctx a OK [CallOutput 0 (OutputShape h); gemm_call k ctx a h].


(** The calls that write elements of the output. *)
Definition multiplies (c : Call) : bool :=
  match c with
  | CallMatMul _ _ _ _ _ _ _ => true
  | CallMlasGemmBatch _ _ _ _ _ _ _ _ => true
  | _ => false
  end.

(** The plain multiplications of lines 115-124, one per batch. *)
Definition matmul_calls (ctx : OpKernelContext) (a b : Tensor)
    (h : MatMulComputeHelper) : list Call :=
  map (fun i =>
         CallMatMul
           (static_cast_int (M h)) (static_cast_int (N h)) (static_cast_int (K h))
           (DataRaw a + at_ (LeftOffsets h) i)
           (DataRaw b + at_ (RightOffsets h) i)
           (output_buffer ctx 0 (OutputShape h) + at_ (OutputOffsets h) i)
           (GetOperatorThreadPool ctx))
      (seq 0 (size (OutputOffsets h))).

(** The generic [Compute] on two present inputs, along its three ways out. *)
Definition plain_path (ctx : OpKernelContext) (a b : Tensor) : option (Status * list Call) :=
  let resolution :=
    [CallInput 0; CallInput 1; CallHelperCompute (Shape a) (Shape b) false false] in
  match helper_Compute (Shape a) (Shape b) false false with
  | ResolveError e => Some (Fail e, resolution)
  | ResolveOK h =>
    if Size (OutputShape h) =? 0
    then Some (OK, resolution ++ [CallOutput 0 (OutputShape h)])
    else Some (OK, resolution ++ CallOutput 0 (OutputShape h) :: matmul_calls ctx a b h)
  end.

(** What the pack primitive answers when [PrePack] calls it (line 137). *)
Definition pack_call (k : MatMul_float) (tensor : Tensor) (alloc : AllocatorPtr)
  : bool * BufferUniquePtr * TensorShape :=
  GemmPackBFp32 alloc tensor (trans_b_attr_ k) (packed_b_ k) (b_shape_ k).

End Kernel.

Arguments mkParams {elem}.
Arguments A {elem}.
Arguments lda {elem}.
Arguments B {elem}.
Arguments ldb {elem}.
Arguments C {elem}.
Arguments ldc {elem}.
Arguments alpha {elem}.
Arguments beta {elem}.
Arguments BIsPacked {elem}.
Arguments CallInput {elem}.
Arguments CallHelperCompute {elem}.
Arguments CallOutput {elem}.
Arguments CallMatMul {elem}.
Arguments CallMlasGemmBatch {elem}.
Arguments mkMatMul {elem}.
Arguments trans_a_attr_ {elem}.
Arguments trans_b_attr_ {elem}.
Arguments alpha_attr_ {elem}.
Arguments packed_b_ {elem}.
Arguments b_shape_ {elem}.
Arguments set_packed {elem}.
Arguments UseCachedPrePackedWeight {elem}.
Arguments Compute_float {elem}.
Arguments PrePack {elem}.
Arguments raw_B {elem}.
Arguments effective_b_shape {elem}.
Arguments effective_trans_a {elem}.
Arguments effective_trans_b {elem}.
Arguments descriptors_all {elem}.
Arguments descriptor {elem}.
Arguments gemm_call {elem}.
Arguments resolution_log {elem}.
Arguments resolve_float {elem}.
Arguments log_tail {elem}.
Arguments multiplies {elem}.
Arguments pack_call {elem}.
Arguments matmul_calls {elem}.

(** ** Kernel registration, lines 13-90 *)

Module Registration.

Inductive ElemType := Float32 | Float64 | Int32 | UInt32 | Int64 | UInt64.

(** The class a registration names: [MatMul<float>], [MatMul<double>],
    [MatMul<int32_t>], [MatMul<int64_t>]. *)
Inductive KernelClass :=
| MatMul_float_class
| MatMul_double_class
| MatMul_int32_t_class
| MatMul_int64_t_class.

Record KernelDef := mkKernelDef {
  since_version : nat;
  end_version : option nat;
  type_constraint : list ElemType;
  kernel_class : KernelClass
}.

Definition registrations : list KernelDef :=
  [ mkKernelDef 1 (Some 8%nat) [Float32] MatMul_float_class;
    mkKernelDef 1 (Some 8%nat) [Float64] MatMul_double_class;
    mkKernelDef 9 (Some 12%nat) [Float32] MatMul_float_class;
    mkKernelDef 9 (Some 12%nat) [Float64] MatMul_double_class;
    mkKernelDef 9 (Some 12%nat) [Int32; UInt32] MatMul_int32_t_class;
    mkKernelDef 9 (Some 12%nat) [Int64; UInt64] MatMul_int64_t_class;
    mkKernelDef 13 None [Float32] MatMul_float_class;
    mkKernelDef 13 None [Float64] MatMul_double_class;
    mkKernelDef 13 None [Int32; UInt32] MatMul_int32_t_class;
    mkKernelDef 13 None [Int64; UInt64] MatMul_int64_t_class ].

Definition ElemType_eqb (x y : ElemType) : bool :=
  match x, y with
  | Float32, Float32 | Float64, Float64 | Int32, Int32
  | UInt32, UInt32 | Int64, Int64 | UInt64, UInt64 => true
  | _, _ => false
  end.

Definition in_versions (opset : nat) (d : KernelDef) : bool :=
  (since_version d <=? opset)%nat &&
  match end_version d with
  | Some e => (opset <=? e)%nat
  | None => true
  end.

Definition matches (opset : nat) (t : ElemType) (d : KernelDef) : bool :=
  in_versions opset d && existsb (ElemType_eqb t) (type_constraint d).

(** The class registered for an element type at an opset version. *)
Definition lookup (opset : nat) (t : ElemType) : option KernelClass :=
  option_map kernel_class (find (matches opset t) registrations).

End Registration.
Import Registration.

Section Dispatch.

Variable elem : Type.
Variable elem_zero : elem.
Variable helper_Compute : TensorShape -> TensorShape -> bool -> bool -> Resolved.

(** [Compute] of an instance of a registered class.  Only [MatMul<float>]
    is specialised (line 164); every other class instantiates the primary
    template (line 93), whose body uses no member of the instance.  The
    record [k] is handed to both so that they can be compared. *)
Definition Compute (c : KernelClass) (k : MatMul_float elem)
    (ctx : OpKernelContext) : Run elem :=
  match c with
  | MatMul_float_class => Compute_float elem_zero helper_Compute k ctx
  | MatMul_double_class
  | MatMul_int32_t_class
  | MatMul_int64_t_class => Compute_generic elem helper_Compute ctx
  end.

End Dispatch.

(** ** A model of the shape helper *)

Module HelperModel.

(** Shorter batch-dimension lists are left-padded with 1s. *)
Definition pad_left (n : nat) (l : list Z) : list Z :=
  repeat 1 (n - length l) ++ l.

Fixpoint broadcast (a b : list Z) : option (list Z) :=
  match a, b with
  | [], [] => Some []
  | x :: a', y :: b' =>
    if (x =? y) || (x =? 1) || (y =? 1) then
      option_map (cons (if x =? 1 then y else x)) (broadcast a' b')
    else None
  | _, _ => None
  end.

(** Batch dimensions, rows and columns of an operand of rank at least 2. *)
Definition batch_dims (s : TensorShape) : list Z := firstn (length s - 2) s.
Definition rows (s : TensorShape) : Z := nth (length s - 2) s 0.
Definition cols (s : TensorShape) : Z := nth (length s - 1) s 0.

Fixpoint multi_indices (dims : list Z) : list (list Z) :=
  match dims with
  | [] => [[]]
  | d :: rest =>
    flat_map (fun i => map (cons (Z.of_nat i)) (multi_indices rest))
             (seq 0 (Z.to_nat d))
  end.

(** Offset of a batch index in an operand: a dimension of size 1
    contributes nothing, any other the index times its stride. *)
Fixpoint operand_offset (dims idx : list Z) (block : Z) : Z :=
  match dims, idx with
  | d :: ds, i :: idx' =>
    (if d =? 1 then 0 else i * (Size ds * block)) + operand_offset ds idx' block
  | _, _ => 0
  end.

Fixpoint row_major (dims idx : list Z) : Z :=
  match dims, idx with
  | _ :: ds, i :: idx' => i * Size ds + row_major ds idx'
  | _, _ => 0
  end.

(** Modelled from the spec: the body of [MatMulComputeHelper::Compute] is
    outside this file.  [resolve] follows sections 4.1 (shape broadcast
    resolver) and 4.2 (batch offset computer) of the spec, and serves as a
    concrete helper wherever the kernel is evaluated.  A rank-0 operand, on
    which the spec is silent, is refused. *)
Definition resolve (shapeA shapeB : TensorShape) (transposeA transposeB : bool)
  : Resolved :=
  match shapeA, shapeB with
  | [], _ | _, [] => ResolveError ShapeMismatch
  | _, _ =>
    let vecA := (length shapeA =? 1)%nat in
    let vecB := (length shapeB =? 1)%nat in
    let batchA := if vecA then [] else batch_dims shapeA in
    let batchB := if vecB then [] else batch_dims shapeB in
    let m := if vecA then 1
             else if transposeA then cols shapeA else rows shapeA in
    let kA := if vecA then nth 0 shapeA 0
              else if transposeA then rows shapeA else cols shapeA in
    let kB := if vecB then nth 0 shapeB 0
              else if transposeB then cols shapeB else rows shapeB in
    let n := if vecB then 1
             else if transposeB then rows shapeB else cols shapeB in
    if negb (kA =? kB) then ResolveError ShapeMismatch
    else
      let r := Nat.max (length batchA) (length batchB) in
      let padA := pad_left r batchA in
      let padB := pad_left r batchB in
      match broadcast padA padB with
      | None => ResolveError BroadcastIncompatible
      | Some batch =>
        let out := batch ++ (if vecA then [] else [m]) ++ (if vecB then [] else [n]) in
        ResolveOK
          (mkHelper m n kA out
             (map (fun idx =>
                     (operand_offset padA idx (m * kA),
                      operand_offset padB idx (kA * n),
                      row_major batch idx * (m * n)))
                  (multi_indices batch)))
      end
  end.

End HelperModel.

(** ** A model of the pack primitive *)

(** Modelled from the spec: the body of [GemmPackBFp32] is outside this
    file.  Per the spec the pack primitive returns success with a packed
    buffer and the recorded shape, or declines; packing applies only to a
    B without batch dimensions.  [fresh] is the address the allocator hands
    out.  When it declines, both reference arguments keep their values. *)
Definition GemmPackBFp32_model (fresh : Ptr)
    (alloc : AllocatorPtr) (tensor : Tensor) (trans_b : bool)
    (packed_b : BufferUniquePtr) (b_shape : TensorShape)
  : bool * BufferUniquePtr * TensorShape :=
  if (length (Shape tensor) =? 2)%nat then
    (true, mkBufferUniquePtr fresh (mkBufferDeleter alloc), Shape tensor)
  else (false, packed_b, b_shape).

(** ** A model of the batched GEMM primitive *)

Section GemmModel.

Variable elem : Type.
Variable elem_zero : elem.
Variable elem_add elem_mul : elem -> elem -> elem.
Variable elem_is_zero : elem -> bool.

(** Position of element (k, j) of an N-column, K-row matrix inside its
    packed buffer; the layout is private to the primitive. *)
Variable packed_index : Z -> Z -> Z -> Z -> Z.

(** Memory: the element stored at each address. *)
Definition Memory := Ptr -> elem.

(** The indices 0, ..., n-1 of a dimension of size n. *)
Definition indices (n : Z) : list Z := map Z.of_nat (seq 0 (Z.to_nat n)).

(** Address of A(i, k): rows are [lda] apart; a transposed A is stored as
    K rows of M elements. *)
Definition addr_A (TransA : CBLAS_TRANSPOSE) (d : MLAS_SGEMM_DATA_PARAMS elem)
    (i k : Z) : Ptr :=
  match TransA with
  | CblasNoTrans => A d + (i * lda d + k)
  | CblasTrans => A d + (k * lda d + i)
  end.

(** Address of B(k, j), in the raw layout or inside the packed buffer. *)
Definition addr_B (TransB : CBLAS_TRANSPOSE) (n k : Z)
    (d : MLAS_SGEMM_DATA_PARAMS elem) (kk j : Z) : Ptr :=
  if BIsPacked d then B d + packed_index n k kk j
  else match TransB with
       | CblasNoTrans => B d + (kk * ldb d + j)
       | CblasTrans => B d + (j * ldb d + kk)
       end.

Definition addr_C (d : MLAS_SGEMM_DATA_PARAMS elem) (i j : Z) : Ptr :=
  C d + (i * ldc d + j).

(** The sum over the inner dimension of A(i, kk) * B(kk, j). *)
Definition dot (TransA TransB : CBLAS_TRANSPOSE) (n k : Z)
    (d : MLAS_SGEMM_DATA_PARAMS elem) (mem : Memory) (i j : Z) : elem :=
  fold_left
    (fun acc kk =>
       elem_add acc (elem_mul (mem (addr_A TransA d i kk))
                              (mem (addr_B TransB n k d kk j))))
    (indices k) elem_zero.

(** Modelled from the spec: the GEMM primitive is outside this file.  The
    spec's glossary gives C = alpha A B (+ beta C), and says that with an
    accumulation multiplier of 0 the output is overwritten and never
    accumulated into: the term in C is present only for a non-zero beta. *)
Definition gemm_value (TransA TransB : CBLAS_TRANSPOSE) (n k : Z)
    (d : MLAS_SGEMM_DATA_PARAMS elem) (mem : Memory) (i j : Z) : elem :=
  let product := elem_mul (alpha d) (dot TransA TransB n k d mem i j) in
  if elem_is_zero (beta d) then product
  else elem_add product (elem_mul (beta d) (mem (addr_C d i j))).

(** The (i, j) positions of an m-by-n output, row by row. *)
Definition cells (m n : Z) : list (Z * Z) := list_prod (indices m) (indices n).



(** Modelled from the spec: one multiplication of the batch, writing its
    m-by-n result in place and leaving every other address as it was. *)
Definition gemm_one (TransA TransB : CBLAS_TRANSPOSE) (m n k : Z)
    (d : MLAS_SGEMM_DATA_PARAMS elem) (mem : Memory) : Memory :=
  fun p =>
    match find (fun ij => addr_C d (fst ij) (snd ij) =? p) (cells m n) with
    | Some ij => gemm_value TransA TransB n k d mem (fst ij) (snd ij)
    | None => mem p
    end.

(** Modelled from the spec: the batched primitive performs the
    multiplications of all descriptors. *)
Definition MlasGemmBatch (TransA TransB : CBLAS_TRANSPOSE) (m n k : Z)
    (Data : list (MLAS_SGEMM_DATA_PARAMS elem)) (mem : Memory) : Memory :=
  fold_left (fun mem' d => gemm_one TransA TransB m n k d mem') Data mem.





(** The memory after the calls of a log, GEMM batches taking effect in
    order; the other calls write no element. *)
Definition run_log (log : list (Call elem)) (mem : Memory) : Memory :=
  fold_left
    (fun mem' c =>
       match c with
       | CallMlasGemmBatch ta tb m n k data _ _ => MlasGemmBatch ta tb m n k data mem'
       | _ => mem'
       end)
    log mem.

End GemmModel.

(** ** Concrete instances used to evaluate the kernel *)

Module Instances.

(** Elements are integers here, an exact stand-in for small floats. *)
Definition Compute_float_Z := Compute_float 0 HelperModel.resolve.
Definition Compute_generic_Z := Compute_generic Z HelperModel.resolve.
Definition Compute_Z := Compute Z 0 HelperModel.resolve.
Definition PrePack_Z := @PrePack Z (GemmPackBFp32_model 4096).

(** Row-major packing, the simplest layout a primitive may choose. *)
Definition packed_row_major (n k kk j : Z) : Z := kk * n + j.

Definition context (a b : option Tensor) : OpKernelContext :=
  mkContext (fun i => match i with 0%nat => a | 1%nat => b | _ => None end)
            (fun _ _ => 9000) 7.

Definition fresh_kernel (ta tb : bool) (al : Z) : MatMul_float Z :=
  mkMatMul ta tb al null_buffer [].

(** Memory holding the rows of a list from address [base] on. *)
Definition store (base : Ptr) (l : list Z) (mem : Memory Z) : Memory Z :=
  fun p => if (base <=? p) && (p <? base + Z.of_nat (length l))
           then nth (Z.to_nat (p - base)) l 0 else mem p.

Definition load (mem : Memory Z) (base : Ptr) (n : nat) : list Z :=
  map (fun i => mem (base + Z.of_nat i)) (seq 0 n).

Definition run_Z (r : Run Z) (mem : Memory Z) : Memory Z :=
  match r with
  | Some (_, log) => run_log Z 0 Z.add Z.mul (Z.eqb 0) packed_row_major log mem
  | None => mem
  end.

(** Tensors, contexts and instances of the examples. *)
Definition A22 : Tensor := mkTensor [2; 2] 100.
Definition B22 : Tensor := mkTensor [2; 2] 200.
Definition A23 : Tensor := mkTensor [2; 3] 100.
Definition B43 : Tensor := mkTensor [4; 3] 200.
Definition A03 : Tensor := mkTensor [0; 3] 100.
Definition B32 : Tensor := mkTensor [3; 2] 200.
Definition A3 : Tensor := mkTensor [3] 100.
Definition B3 : Tensor := mkTensor [3] 200.
Definition A_wide : Tensor := mkTensor [1; 2147483648] 100.
Definition B_tall : Tensor := mkTensor [2147483648; 1] 200.

(** An instance that adopted the cached buffer at address 4096. *)
Definition cached_record : PrepackedWeight :=
  mkPrepackedWeight [mkBufferUniquePtr 4096 (mkBufferDeleter (Some 3%nat))]
                    [[2; 2]] [4] true.

Definition adopted_kernel : MatMul_float Z :=
  mkMatMul false false 1 (mkBufferUniquePtr 4096 (mkBufferDeleter None)) [2; 2].

(** A record that already holds a buffer, at address 555. *)
Definition used_record : PrepackedWeight :=
  mkPrepackedWeight [mkBufferUniquePtr 555 (mkBufferDeleter (Some 1%nat))]
                    [[1; 1]] [1] true.

Definition empty_record : PrepackedWeight := mkPrepackedWeight [] [] [] false.

End Instances.


(** ** Further notions used in statements about the kernel *)

(** The class each element type is registered to. *)
Definition is_floating (t : ElemType) : bool :=
  match t with Float32 | Float64 => true | _ => false end.

Definition class_of (t : ElemType) : KernelClass :=
  match t with
  | Float32 => MatMul_float_class
  | Float64 => MatMul_double_class
  | Int32 | UInt32 => MatMul_int32_t_class
  | Int64 | UInt64 => MatMul_int64_t_class
  end.

(** What a list of buffers hands back to allocators when destroyed, and the
    same for the buffers of a caching record, if there is one. *)
Definition releases (l : list BufferUniquePtr) : list (nat * Ptr) :=
  flat_map destroy l.

Definition held (w : option PrepackedWeight) : list (nat * Ptr) :=
  match w with Some r => releases (buffers_ r) | None => [] end.



Section Views.

Variable elem : Type.
Variable GemmPackBFp32 :
  AllocatorPtr -> Tensor -> bool -> BufferUniquePtr -> TensorShape ->
  bool * BufferUniquePtr * TensorShape.

(** The calls that allocate an output tensor. *)
Definition allocates (c : Call elem) : bool :=
  match c with CallOutput _ _ => true | _ => false end.

(** The (A, B, C) pointers of the multiplications a call stands for. *)
Definition operands (c : Call elem) : list (Ptr * Ptr * Ptr) :=
  match c with
  | CallMatMul _ _ _ a b y _ => [(a, b, y)]
  | CallMlasGemmBatch _ _ _ _ _ data _ _ => map (fun d => (A d, B d, C d)) data
  | _ => []
  end.

(** A log without the request for input 1 and with the B side of every
    descriptor blanked. *)
Definition requests_B (c : Call elem) : bool :=
  match c with CallInput 1 => true | _ => false end.

Definition blank_B (d : MLAS_SGEMM_DATA_PARAMS elem) : MLAS_SGEMM_DATA_PARAMS elem :=
  mkParams (A d) (lda d) nullptr (ldb d) (C d) (ldc d) (alpha d) (beta d) false.

Definition forget_B (c : Call elem) : Call elem :=
  match c with
  | CallMlasGemmBatch ta tb m n k data bs tp =>
    CallMlasGemmBatch ta tb m n k (map blank_B data) bs tp
  | _ => c
  end.

Definition modulo_B (log : list (Call elem)) : list (Call elem) :=
  map forget_B (filter (fun c => negb (requests_B c)) log).

(** One call of [PrePack] or [UseCachedPrePackedWeight] that returns, with
    any arguments, and any sequence of such calls. *)
Inductive setup_step : MatMul_float elem -> MatMul_float elem -> Prop :=
| step_PrePack k tensor input_idx w alloc st is_packed k' w' :
    PrePack GemmPackBFp32 k tensor input_idx w alloc = (st, is_packed, k', w') ->
    setup_step k k'
| step_UseCached k cached input_idx st read_from_cache k' released :
    UseCachedPrePackedWeight k cached input_idx
    = Some (st, read_from_cache, k', released) ->
    setup_step k k'.

Inductive setup : MatMul_float elem -> MatMul_float elem -> Prop :=
| setup_done k : setup k k
| setup_more k k' k'' : setup_step k k' -> setup k' k'' -> setup k k''.

End Views.

Arguments allocates {elem}.
Arguments operands {elem}.
Arguments requests_B {elem}.
Arguments blank_B {elem}.
Arguments forget_B {elem}.
Arguments modulo_B {elem}.
Arguments setup_step {elem}.
Arguments setup {elem}.

(** Further instances and logs of the examples. *)
Module MoreInstances.

Import Instances.

(** An instance without packed buffer whose [b_shape_] holds a shape. *)
Definition stale_kernel : MatMul_float Z :=
  mkMatMul false false 1 null_buffer [3; 2].

Definition descriptor22 : MLAS_SGEMM_DATA_PARAMS Z :=
  mkParams 100 2 200 2 9000 2 1 0 false.

Definition log22 : list (Call Z) :=
  [CallInput 0; CallInput 1;
   CallHelperCompute [2; 2] [2; 2] false false;
   CallOutput 0 [2; 2];
   CallMlasGemmBatch CblasNoTrans CblasNoTrans 2 2 2 [descriptor22] 1 7].

Definition helper22 : MatMulComputeHelper := mkHelper 2 2 2 [2; 2] [(0, 0, 0)].

Definition descriptor_wide : MLAS_SGEMM_DATA_PARAMS Z :=
  mkParams 100 18446744071562067968 200 1 9000 1 1 0 false.

Definition log_wide : list (Call Z) :=
  [CallInput 0; CallInput 1;
   CallHelperCompute [1; 2147483648] [2147483648; 1] false false;
   CallOutput 0 [1; 1];
   CallMlasGemmBatch CblasNoTrans CblasNoTrans 1 1 2147483648 [descriptor_wide] 1 7].

Definition helper_wide : MatMulComputeHelper :=
  mkHelper 1 1 2147483648 [1; 1] [(0, 0, 0)].

Definition generic_log22 : list (Call Z) :=
  [CallInput 0; CallInput 1;
   CallHelperCompute [2; 2] [2; 2] false false;
   CallOutput 0 [2; 2];
   CallMatMul 2 2 2 100 200 9000 7].

End MoreInstances.
(** * Properties *)

(** ** Machine integers *)

Lemma static_cast_size_t_small x :
  0 <= x < 2 ^ 64 -> static_cast_size_t x = x.
Proof.
  intros Hx. unfold static_cast_size_t, size_t_modulus.
  now apply Z.mod_small.
Qed.

Lemma static_cast_int_small x :
  - 2 ^ 31 <= x < 2 ^ 31 -> static_cast_int x = x.
Proof.
  intros Hx. unfold static_cast_int.
  rewrite Z.mod_small; lia.
Qed.

Lemma through_int_small x :
  0 <= x < 2 ^ 31 -> size_t_of_int (static_cast_int x) = x.
Proof.
  intros Hx. unfold size_t_of_int.
  rewrite static_cast_int_small by lia.
  apply static_cast_size_t_small. lia.
Qed.

(** ** Offset columns of the helper *)

Lemma size_LeftOffsets h : size (LeftOffsets h) = size (OutputOffsets h).
Proof. unfold size, LeftOffsets, OutputOffsets. now rewrite !length_map. Qed.

Lemma size_RightOffsets h : size (RightOffsets h) = size (OutputOffsets h).
Proof. unfold size, RightOffsets, OutputOffsets. now rewrite !length_map. Qed.


(** ** The model of the shape helper keeps the promise on output offsets *)












(** ** The float kernel's [Compute] *)

Section ComputeFacts.

Variable elem : Type.
Variable elem_zero : elem.
Variable helper_Compute : TensorShape -> TensorShape -> bool -> bool -> Resolved.

(** [Compute] along its four ways out. *)
Lemma Compute_float_unfold (k : MatMul_float elem) (ctx : OpKernelContext) :
  Compute_float elem_zero helper_Compute k ctx =
  match Input ctx 0 with
  | None => None
  | Some a =>
    match resolve_float helper_Compute k ctx a with
    | ResolveError e => Some (Fail e, resolution_log k ctx a)
    | ResolveOK h =>
      if Size (OutputShape h) =? 0
      then Some (OK, resolution_log k ctx a ++ [CallOutput 0 (OutputShape h)])
      else Some (OK, resolution_log k ctx a ++
                     [CallOutput 0 (OutputShape h); gemm_call elem_zero k ctx a h])
    end
  end.
Proof.
  unfold Compute_float, resolve_float, resolution_log, gemm_call,
    descriptor, effective_trans_a, effective_trans_b, effective_b_shape, raw_B,
    CBLAS_of, Output.
  destruct (Input ctx 0) as [a|]; [|reflexivity].
  destruct (is_set (packed_b_ k)); cbn [Shape DataRaw app];
    destruct helper_Compute as [e|h]; try reflexivity;
    destruct (Size (OutputShape h) =? 0); try reflexivity;
    rewrite <- app_assoc; reflexivity.
Qed.

Lemma Compute_float_returned (k : MatMul_float elem) (ctx : OpKernelContext)
    (st : Status) (log : list (Call elem)) :
  Compute_float elem_zero helper_Compute k ctx = Some (st, log) <->
  exists a tl, Input ctx 0 = Some a /\
               log = resolution_log k ctx a ++ tl /\
               log_tail elem_zero helper_Compute k ctx a st tl.
Proof.
  rewrite Compute_float_unfold. split.
  - destruct (Input ctx 0) as [a|]; [|discriminate].
    destruct (resolve_float helper_Compute k ctx a) as [e|h] eqn:Er.
    + intros [= <- <-]. exists a, []. rewrite app_nil_r.
      repeat split. now constructor.
    + destruct (Size (OutputShape h) =? 0) eqn:Es; intros [= <- <-]; exists a.
      * eexists. repeat split. constructor; [exact Er | now apply Z.eqb_eq].
      * eexists. repeat split. constructor; [exact Er | now apply Z.eqb_neq].
  - intros (a & tl & -> & -> & Ht). destruct Ht as [e Er|h Er Hs|h Er Hs]; rewrite Er.
    + now rewrite app_nil_r.
    + apply Z.eqb_eq in Hs. now rewrite Hs.
    + apply Z.eqb_neq in Hs. now rewrite Hs.
Qed.

(** *** Membership in the log *)

Lemma in_resolution_log (k : MatMul_float elem) (ctx : OpKernelContext)
    (a : Tensor) (c : Call elem) :
  In c (resolution_log k ctx a) <->
  c = CallInput 0 \/
  (is_set (packed_b_ k) = false /\ c = CallInput 1) \/
  c = CallHelperCompute (Shape a) (effective_b_shape k ctx)
                        (effective_trans_a k a) (effective_trans_b k ctx).
Proof.
  unfold resolution_log.
  destruct (is_set (packed_b_ k)); cbn; intuition (try discriminate; auto).
Qed.

Lemma in_log_tail (k : MatMul_float elem) (ctx : OpKernelContext) (a : Tensor)
    (st : Status) (tl : list (Call elem)) (c : Call elem) :
  log_tail elem_zero helper_Compute k ctx a st tl ->
  In c tl ->
  exists h, resolve_float helper_Compute k ctx a = ResolveOK h /\
            (c = CallOutput 0 (OutputShape h) \/
             (Size (OutputShape h) <> 0 /\ c = gemm_call elem_zero k ctx a h)).
Proof.
  intros [e Er|h Er Hs|h Er Hs] Hin; cbn in Hin.
  - contradiction.
  - exists h. intuition auto.
  - exists h. intuition auto.
Qed.

(** Every call of a returned [Compute] is one of five. *)
Lemma Compute_float_calls (k : MatMul_float elem) (ctx : OpKernelContext)
    (st : Status) (log : list (Call elem)) (c : Call elem) :
  Compute_float elem_zero helper_Compute k ctx = Some (st, log) ->
  In c log ->
  exists a, Input ctx 0 = Some a /\
    (c = CallInput 0 \/
     (is_set (packed_b_ k) = false /\ c = CallInput 1) \/
     c = CallHelperCompute (Shape a) (effective_b_shape k ctx)
                           (effective_trans_a k a) (effective_trans_b k ctx) \/
     exists h, resolve_float helper_Compute k ctx a = ResolveOK h /\
               (c = CallOutput 0 (OutputShape h) \/
                (Size (OutputShape h) <> 0 /\ c = gemm_call elem_zero k ctx a h))).
Proof.
  intros H Hin. apply Compute_float_returned in H.
  destruct H as (a & tl & Ha & -> & Ht). exists a. split; [exact Ha|].
  apply in_app_iff in Hin. destruct Hin as [Hin|Hin].
  - apply in_resolution_log in Hin. intuition auto.
  - right. right. right. eapply in_log_tail; eauto.
Qed.

(** Case analysis on a call [Hin] of the log of a returned [Compute] [H]:
    the cases that cannot be the call at hand are dismissed. *)
Ltac which_call H Hin a Ha Hn h Hr Hc :=
  destruct (Compute_float_calls _ _ _ _ _ H Hin)
    as (a & Ha & [Hc|[[Hn Hc]|[Hc|(h & Hr & [Hc|[_ Hc]])]]]);
  try discriminate Hc.

(** A property of the descriptors [Compute] builds holds of every
    descriptor of its batch. *)
Lemma descriptors_all_intro (P : MLAS_SGEMM_DATA_PARAMS elem -> Prop)
    (k : MatMul_float elem) (ctx : OpKernelContext)
    (st : Status) (log : list (Call elem)) :
  Compute_float elem_zero helper_Compute k ctx = Some (st, log) ->
  (forall a h i, Input ctx 0 = Some a ->
                 resolve_float helper_Compute k ctx a = ResolveOK h ->
                 (i < size (OutputOffsets h))%nat ->
                 P (descriptor elem_zero k ctx a h i)) ->
  descriptors_all P log.
Proof.
  intros H HP TA TB m n kk data bs tp Hin.
  which_call H Hin a Ha Hn h Hr Hc.
  unfold gemm_call in Hc. injection Hc as -> -> -> -> -> -> -> ->.
  apply Forall_forall. intros d Hd. apply in_map_iff in Hd.
  destruct Hd as (i & <- & Hi). apply in_seq in Hi.
  apply (HP a h i Ha Hr). lia.
Qed.

(** [Compute] reads of the context only input 0, the raw B when nothing is
    packed, the output buffer and the thread pool. *)
Lemma Compute_float_same_but_B (k : MatMul_float elem) (ctx ctx' : OpKernelContext) :
  is_set (packed_b_ k) = true ->
  same_but_B ctx ctx' ->
  Compute_float elem_zero helper_Compute k ctx' =
  Compute_float elem_zero helper_Compute k ctx.
Proof.
  intros Hset (Ha & Hy & Ht). unfold Compute_float, Output.
  rewrite Ha, Ht, Hset. destruct (Input ctx 0); [|reflexivity].
  destruct helper_Compute; [reflexivity|]. cbn [Shape DataRaw].
  now rewrite Hy.
Qed.

(** C2. Once [packed_b_] is set, [Compute] does not ask the context for
    input 1: the log has no such call, the helper is called, and only with
    the shape recorded at pack time, every descriptor of the batch points
    at the one packed buffer whatever the right offsets are, and the run is
    the same under any context that differs only in the raw B input. *)
Theorem packed_Compute_ignores_raw_B (k : MatMul_float elem)
    (ctx : OpKernelContext) (st : Status) (log : list (Call elem)) :
  is_set (packed_b_ k) = true ->
  Compute_float elem_zero helper_Compute k ctx = Some (st, log) ->
  ~ In (CallInput 1) log /\
  (exists l ta tb, In (CallHelperCompute l (b_shape_ k) ta tb) log) /\
  (forall l r ta tb, In (CallHelperCompute l r ta tb) log -> r = b_shape_ k) /\
  descriptors_all (fun d => BIsPacked d = true /\ B d = get (packed_b_ k)) log /\
  (forall ctx', same_but_B ctx ctx' ->
                Compute_float elem_zero helper_Compute k ctx' = Some (st, log)).
Proof.
  intros Hset H.
  assert (Hshape : effective_b_shape k ctx = b_shape_ k).
  { unfold effective_b_shape, raw_B. now rewrite Hset. }
  repeat split.
  - intros Hin. which_call H Hin a Ha Hn h Hr Hc. congruence.
  - apply Compute_float_returned in H. destruct H as (a & tl & Ha & -> & Ht).
    exists (Shape a), (effective_trans_a k a), (effective_trans_b k ctx).
    apply in_app_iff. left. apply in_resolution_log.
    right. right. now rewrite Hshape.
  - intros l r ta tb Hin. which_call H Hin a Ha Hn h Hr Hc.
    injection Hc as -> -> -> ->. exact Hshape.
  - apply (descriptors_all_intro _ _ _ _ _ H). intros a h i _ _ _.
    unfold descriptor. cbn. now rewrite Hset.
  - intros ctx' Hc. now rewrite (Compute_float_same_but_B k ctx ctx' Hset Hc).
Qed.

(** *** Descriptors *)

(** The fields of the descriptor of batch [i] that involve no cast
    through [int]. *)
Lemma descriptor_fields (k : MatMul_float elem) (ctx : OpKernelContext)
    (a : Tensor) (h : MatMulComputeHelper) (i : nat) :
  let d := descriptor elem_zero k ctx a h i in
  A d = DataRaw a + at_ (LeftOffsets h) i /\
  C d = output_buffer ctx 0 (OutputShape h) + at_ (OutputOffsets h) i /\
  ldc d = static_cast_size_t (N h) /\
  alpha d = alpha_attr_ k /\
  beta d = elem_zero /\
  BIsPacked d = is_set (packed_b_ k).
Proof. cbn. repeat split. Qed.

(** With M, N and K below 2^31 the leading dimensions are the ones the
    transposition flags select. *)
Lemma descriptor_leading_dimensions (k : MatMul_float elem)
    (ctx : OpKernelContext) (a : Tensor) (h : MatMulComputeHelper) (i : nat) :
  0 <= M h < 2 ^ 31 -> 0 <= N h < 2 ^ 31 -> 0 <= K h < 2 ^ 31 ->
  let d := descriptor elem_zero k ctx a h i in
  lda d = (if effective_trans_a k a then M h else K h) /\
  ldb d = (if effective_trans_b k ctx then K h else N h) /\
  ldc d = N h.
Proof.
  intros HM HN HK. unfold descriptor. cbn [lda ldb ldc].
  assert (H64 : 2 ^ 31 < 2 ^ 64) by reflexivity.
  rewrite (static_cast_size_t_small (M h)), (static_cast_size_t_small (N h)),
    (static_cast_size_t_small (K h)) by lia.
  repeat split.
  - destruct (effective_trans_a k a); apply through_int_small; lia.
  - destruct (effective_trans_b k ctx); apply through_int_small; lia.
Qed.


(** *** Empty outputs *)

(** C4. When the resolved output shape has no element, [Compute] returns
    success after allocating the output of that shape, and its log ends
    there: no multiplication is dispatched, on the generic path and on the
    float path alike. *)
Theorem empty_output_skips_multiplication :
  (forall (ctx : OpKernelContext) (a b : Tensor) (h : MatMulComputeHelper),
      Input ctx 0 = Some a ->
      Input ctx 1 = Some b ->
      helper_Compute (Shape a) (Shape b) false false = ResolveOK h ->
      Size (OutputShape h) = 0 ->
      exists log,
        Compute_generic elem helper_Compute ctx = Some (OK, log) /\
        log = [CallInput 0; CallInput 1;
               CallHelperCompute (Shape a) (Shape b) false false;
               CallOutput 0 (OutputShape h)] /\
        existsb multiplies log = false) /\
  (forall (k : MatMul_float elem) (ctx : OpKernelContext) (a : Tensor)
          (h : MatMulComputeHelper),
      Input ctx 0 = Some a ->
      resolve_float helper_Compute k ctx a = ResolveOK h ->
      Size (OutputShape h) = 0 ->
      exists log,
        Compute_float elem_zero helper_Compute k ctx = Some (OK, log) /\
        log = resolution_log k ctx a ++ [CallOutput 0 (OutputShape h)] /\
        existsb multiplies log = false).
Proof.
  split.
  - intros ctx a b h Ha Hb Hr Hs. eexists. split; [|split; reflexivity].
    unfold Compute_generic. rewrite Ha, Hb, Hr. cbn [Output Shape].
    apply Z.eqb_eq in Hs. now rewrite Hs.
  - intros k ctx a h Ha Hr Hs. eexists. split; [|split; [reflexivity|]].
    + rewrite Compute_float_unfold, Ha, Hr.
      apply Z.eqb_eq in Hs. now rewrite Hs.
    + unfold resolution_log. now destruct (is_set (packed_b_ k)).
Qed.

(** *** Vectors are not transposed *)

(** C6. The helper is called with the shape of A and the raw or recorded
    shape of B; the flag it receives for an operand of rank 1 is [false]
    whatever the attribute says, and so is the flag the GEMM batch
    receives. *)
Theorem vector_operands_are_not_transposed (k : MatMul_float elem)
    (ctx : OpKernelContext) (a : Tensor) (st : Status) (log : list (Call elem)) :
  Input ctx 0 = Some a ->
  Compute_float elem_zero helper_Compute k ctx = Some (st, log) ->
  effective_b_shape k ctx =
    (if is_set (packed_b_ k) then b_shape_ k
     else match Input ctx 1 with Some b => Shape b | None => b_shape_ k end) /\
  (exists ta tb,
      In (CallHelperCompute (Shape a) (effective_b_shape k ctx) ta tb) log) /\
  (forall l r ta tb,
      In (CallHelperCompute l r ta tb) log ->
      l = Shape a /\ r = effective_b_shape k ctx /\
      (NumDimensions l = 1 -> ta = false) /\
      (NumDimensions r = 1 -> tb = false)) /\
  (forall TA TB m n kk data bs tp,
      In (CallMlasGemmBatch TA TB m n kk data bs tp) log ->
      (NumDimensions (Shape a) = 1 -> TA = CblasNoTrans) /\
      (NumDimensions (effective_b_shape k ctx) = 1 -> TB = CblasNoTrans)).
Proof.
  intros Ha H.
  assert (HA : NumDimensions (Shape a) = 1 -> effective_trans_a k a = false).
  { intros Hr. unfold effective_trans_a. rewrite Hr. cbn. apply andb_false_r. }
  assert (HB : NumDimensions (effective_b_shape k ctx) = 1 ->
               effective_trans_b k ctx = false).
  { intros Hr. unfold effective_trans_b. rewrite Hr. cbn. apply andb_false_r. }
  split; [|split; [|split]].
  - unfold effective_b_shape, raw_B. now destruct (is_set (packed_b_ k)).
  - apply Compute_float_returned in H. destruct H as (a' & tl & Ha' & -> & _).
    assert (a' = a) as -> by congruence.
    do 2 eexists. apply in_app_iff. left. apply in_resolution_log.
    right. right. reflexivity.
  - intros l r ta tb Hin. which_call H Hin a' Ha' Hn h Hr Hc.
    assert (a' = a) as -> by congruence.
    injection Hc as -> -> -> ->. auto.
  - intros TA TB m n kk data bs tp Hin. which_call H Hin a' Ha' Hn h Hr Hc.
    assert (a' = a) as -> by congruence.
    unfold gemm_call in Hc. injection Hc as -> -> _ _ _ _ _ _.
    split; intros Hr'; [rewrite (HA Hr')|rewrite (HB Hr')]; reflexivity.
Qed.

(** *** Which path an element type takes *)

Lemma Compute_generic_plain (ctx : OpKernelContext) (a b : Tensor) :
  Input ctx 0 = Some a ->
  Input ctx 1 = Some b ->
  Compute_generic elem helper_Compute ctx = plain_path elem helper_Compute ctx a b.
Proof.
  intros Ha Hb. unfold Compute_generic, plain_path, matmul_calls, Output.
  rewrite Ha, Hb. destruct helper_Compute as [e|h]; [reflexivity|].
  cbn [Shape DataRaw]. destruct (Size (OutputShape h) =? 0); [reflexivity|].
  now rewrite <- app_assoc.
Qed.

(** A registration found for [t] lists [t] in its type constraint. *)
Lemma lookup_registered (opset : nat) (t : ElemType) (c : KernelClass) :
  lookup opset t = Some c ->
  exists d, In d registrations /\ kernel_class d = c /\
            existsb (ElemType_eqb t) (type_constraint d) = true.
Proof.
  unfold lookup. destruct (find (matches opset t) registrations) as [d|] eqn:E;
    [|discriminate].
  intros [= <-]. apply find_some in E. destruct E as [Hin Hm].
  unfold matches in Hm. apply andb_true_iff in Hm.
  exists d. intuition auto.
Qed.

Lemma lookup_Float32 (opset : nat) (c : KernelClass) :
  lookup opset Float32 = Some c -> c = MatMul_float_class.
Proof.
  intros H. apply lookup_registered in H. destruct H as (d & Hin & <- & Hm).
  cbn in Hin.
  repeat (destruct Hin as [<-|Hin]; [cbn in Hm; try discriminate Hm; reflexivity|]).
  contradiction.
Qed.

Lemma lookup_not_Float32 (opset : nat) (t : ElemType) (c : KernelClass) :
  t <> Float32 -> lookup opset t = Some c -> c <> MatMul_float_class.
Proof.
  intros Ht H. apply lookup_registered in H. destruct H as (d & Hin & <- & Hm).
  cbn in Hin.
  repeat (destruct Hin as [<-|Hin];
          [cbn in Hm; try discriminate;
           destruct t; try discriminate Hm; congruence|]).
  contradiction.
Qed.

(** C1, as the code has it.  Of the registered element types only float32
    runs the full path of the specialisation, with the transposition
    attributes, the multiplier and the packed buffer of the instance.
    Float64 and the four integer types run the primary template: the helper
    is called with both flags off, and each batch is one plain multiply at
    the left, right and output offsets; nothing of the instance's
    attributes or packed buffer enters the run. *)
Theorem Compute_path_of_element_type (opset : nat) (t : ElemType)
    (c : KernelClass) (k : MatMul_float elem) (ctx : OpKernelContext) :
  lookup opset t = Some c ->
  (t = Float32 ->
   Compute elem elem_zero helper_Compute c k ctx =
   Compute_float elem_zero helper_Compute k ctx) /\
  (t <> Float32 ->
   Compute elem elem_zero helper_Compute c k ctx =
   Compute_generic elem helper_Compute ctx /\
   (forall k', Compute elem elem_zero helper_Compute c k' ctx =
               Compute elem elem_zero helper_Compute c k ctx) /\
   (forall a b, Input ctx 0 = Some a -> Input ctx 1 = Some b ->
                Compute elem elem_zero helper_Compute c k ctx =
                plain_path elem helper_Compute ctx a b)).
Proof.
  intros Hl. split.
  - intros ->. now rewrite (lookup_Float32 _ _ Hl).
  - intros Ht. pose proof (lookup_not_Float32 _ _ _ Ht Hl) as Hc.
    assert (Hg : forall k', Compute elem elem_zero helper_Compute c k' ctx =
                            Compute_generic elem helper_Compute ctx).
    { intros k'. destruct c; [contradiction| | |]; reflexivity. }
    split; [apply Hg|]. split.
    + intros k'. now rewrite !Hg.
    + intros a b Ha Hb. rewrite Hg. now apply Compute_generic_plain.
Qed.

(** *** An instance that holds no packed buffer *)

(** Without a packed buffer [Compute] asks for input 1, and every
    descriptor is marked unpacked and points into the raw B. *)
Lemma unpacked_Compute_uses_raw_B (k : MatMul_float elem)
    (ctx : OpKernelContext) (st : Status) (log : list (Call elem)) :
  is_set (packed_b_ k) = false ->
  Compute_float elem_zero helper_Compute k ctx = Some (st, log) ->
  In (CallInput 1) log /\
  descriptors_all (fun d => BIsPacked d = false) log /\
  (forall a b h i, Input ctx 1 = Some b ->
                   B (descriptor elem_zero k ctx a h i) =
                   DataRaw b + at_ (RightOffsets h) i).
Proof.
  intros Hset H. repeat split.
  - apply Compute_float_returned in H. destruct H as (a & tl & _ & -> & _).
    apply in_app_iff. left. apply in_resolution_log. auto.
  - apply (descriptors_all_intro _ _ _ _ _ H). intros a h i _ _ _.
    unfold descriptor. cbn. exact Hset.
  - intros a b h i Hb. unfold descriptor, raw_B. cbn. now rewrite Hset, Hb.
Qed.

(** ** [PrePack] and [UseCachedPrePackedWeight] *)

Variable GemmPackBFp32 :
  AllocatorPtr -> Tensor -> bool -> BufferUniquePtr -> TensorShape ->
  bool * BufferUniquePtr * TensorShape.

Lemma PrePack_other_index (k : MatMul_float elem) (tensor : Tensor)
    (input_idx : Z) (w : option PrepackedWeight) (alloc : AllocatorPtr) :
  input_idx <> 1 ->
  PrePack GemmPackBFp32 k tensor input_idx w alloc = (OK, false, k, w).
Proof.
  intros Hi. unfold PrePack. apply Z.eqb_neq in Hi. now rewrite Hi.
Qed.

Lemma PrePack_status_and_flag (k : MatMul_float elem) (tensor : Tensor)
    (w : option PrepackedWeight) (alloc : AllocatorPtr) :
  exists k' w',
    PrePack GemmPackBFp32 k tensor 1 w alloc =
    (OK, fst (fst (pack_call GemmPackBFp32 k tensor alloc)), k', w') /\
    (fst (fst (pack_call GemmPackBFp32 k tensor alloc)) = false ->
     packed_b_ k' = snd (fst (pack_call GemmPackBFp32 k tensor alloc))).
Proof.
  unfold PrePack, pack_call. cbn [Z.eqb Pos.eqb].
  destruct GemmPackBFp32 as [[p pb] sh]. cbn [fst snd].
  destruct w as [w|]; [destruct p|]; cbn; do 2 eexists;
    (split; [reflexivity|]); intros; try discriminate; reflexivity.
Qed.

Lemma set_packed_same (k : MatMul_float elem) :
  set_packed k (packed_b_ k) (b_shape_ k) = k.
Proof. now destruct k. Qed.

(** C7, as the code has it.  [PrePack] always returns success, and
    [is_packed] is true exactly when the input index is 1 and the pack
    primitive succeeds.  For any other index the instance and the caching
    record are returned exactly as they were.  Whenever [is_packed] is
    false the record and the attributes are as they were, and [packed_b_]
    and [b_shape_] hold exactly what the pack primitive left in them (for
    index 1) or what they held (otherwise): for a primitive that leaves its
    arguments alone when it declines, the packed-B field, and then the
    whole instance, is as it was.  So an instance that held no packed
    buffer before the call, and was left none by the declining primitive,
    runs the raw-operand path afterwards: [Compute] asks for input 1 and
    marks every descriptor as unpacked. *)
Theorem PrePack_succeeds_and_falls_back (k : MatMul_float elem)
    (tensor : Tensor) (input_idx : Z) (w : option PrepackedWeight)
    (alloc : AllocatorPtr) :
  exists is_packed k' w',
    PrePack GemmPackBFp32 k tensor input_idx w alloc = (OK, is_packed, k', w') /\
    (is_packed = true <->
     input_idx = 1 /\ fst (fst (pack_call GemmPackBFp32 k tensor alloc)) = true) /\
    (input_idx <> 1 -> k' = k /\ w' = w) /\
    (is_packed = false ->
     w' = w /\
     trans_a_attr_ k' = trans_a_attr_ k /\
     trans_b_attr_ k' = trans_b_attr_ k /\
     alpha_attr_ k' = alpha_attr_ k /\
     packed_b_ k' =
       (if input_idx =? 1
        then snd (fst (pack_call GemmPackBFp32 k tensor alloc))
        else packed_b_ k) /\
     b_shape_ k' =
       (if input_idx =? 1
        then snd (pack_call GemmPackBFp32 k tensor alloc)
        else b_shape_ k) /\
     ((input_idx = 1 ->
       snd (fst (pack_call GemmPackBFp32 k tensor alloc)) = packed_b_ k) ->
      packed_b_ k' = packed_b_ k) /\
     ((input_idx = 1 ->
       snd (fst (pack_call GemmPackBFp32 k tensor alloc)) = packed_b_ k /\
       snd (pack_call GemmPackBFp32 k tensor alloc) = b_shape_ k) ->
      k' = k) /\
     ((input_idx = 1 ->
       is_set (snd (fst (pack_call GemmPackBFp32 k tensor alloc))) = false) ->
      is_set (packed_b_ k) = false ->
      forall ctx st log,
        Compute_float elem_zero helper_Compute k' ctx = Some (st, log) ->
        In (CallInput 1) log /\
        descriptors_all (fun d => BIsPacked d = false) log)).
Proof.
  assert (Hraw : forall k' : MatMul_float elem,
             is_set (packed_b_ k') = false ->
             forall ctx st log,
               Compute_float elem_zero helper_Compute k' ctx = Some (st, log) ->
               In (CallInput 1) log /\
               descriptors_all (fun d => BIsPacked d = false) log).
  { intros k' Hk' ctx st log H.
    destruct (unpacked_Compute_uses_raw_B k' ctx st log Hk' H) as (H1 & H2 & _).
    now split. }
  destruct (Z.eq_dec input_idx 1) as [->|Hi].
  - unfold PrePack, pack_call. cbn [Z.eqb Pos.eqb].
    destruct GemmPackBFp32 as [[p pb] sh]. cbn [fst snd].
    assert (Hdecl : forall w0 : option PrepackedWeight,
      (false = true <-> 1 = 1 /\ false = true) /\
      (1 <> 1 -> set_packed k pb sh = k /\ w0 = w0) /\
      (false = false ->
       w0 = w0 /\
       trans_a_attr_ (set_packed k pb sh) = trans_a_attr_ k /\
       trans_b_attr_ (set_packed k pb sh) = trans_b_attr_ k /\
       alpha_attr_ (set_packed k pb sh) = alpha_attr_ k /\
       packed_b_ (set_packed k pb sh) = pb /\
       b_shape_ (set_packed k pb sh) = sh /\
       ((1 = 1 -> pb = packed_b_ k) ->
        packed_b_ (set_packed k pb sh) = packed_b_ k) /\
       ((1 = 1 -> pb = packed_b_ k /\ sh = b_shape_ k) ->
        set_packed k pb sh = k) /\
       ((1 = 1 -> is_set pb = false) ->
        is_set (packed_b_ k) = false ->
        forall ctx st log,
          Compute_float elem_zero helper_Compute (set_packed k pb sh) ctx
          = Some (st, log) ->
          In (CallInput 1) log /\
          descriptors_all (fun d => BIsPacked d = false) log))).
    { intros w0. split; [split; [discriminate|intros [_ ?]; discriminate]|].
      split; [intros Hn; now contradiction Hn|]. intros _.
      repeat apply conj; try reflexivity.
      - intros Hpb. cbn. now apply Hpb.
      - intros Hleft. destruct (Hleft eq_refl) as [-> ->]. apply set_packed_same.
      - intros Hunset _. apply Hraw. cbn. now apply Hunset. }
    destruct w as [r|]; [destruct p|].
    + cbn [andb negb std_move]. do 3 eexists. split; [reflexivity|].
      split; [tauto|]. split; [intros Hn; now contradiction Hn|]. discriminate.
    + cbn [andb negb]. do 3 eexists. split; [reflexivity|]. apply Hdecl.
    + destruct p.
      * do 3 eexists. split; [reflexivity|].
        split; [tauto|]. split; [intros Hn; now contradiction Hn|]. discriminate.
      * do 3 eexists. split; [reflexivity|]. apply Hdecl.
  - rewrite (PrePack_other_index k tensor input_idx w alloc Hi).
    exists false, k, w. split; [reflexivity|].
    apply Z.eqb_neq in Hi as Hb. rewrite Hb.
    split; [split; [discriminate|intros [? _]; contradiction]|].
    split; [intros _; now split|]. intros _.
    repeat apply conj; try reflexivity.
    + intros _ Hset. now apply Hraw.
Qed.

(** C8, as the code has it.  When the pack primitive succeeds on input 1
    and a caching record is supplied, the packed buffer, its shape and its
    element count are appended to the record, the record is marked filled,
    and the instance keeps an alias with a null deleter to the first
    buffer of the record; that is the buffer just moved in when the record
    held no buffer before the call. *)
Theorem PrePack_donates_packed_buffer (k : MatMul_float elem) (tensor : Tensor)
    (w : PrepackedWeight) (alloc : AllocatorPtr)
    (packed : BufferUniquePtr) (shape : TensorShape) :
  pack_call GemmPackBFp32 k tensor alloc = (true, packed, shape) ->
  exists k' w',
    PrePack GemmPackBFp32 k tensor 1 (Some w) alloc = (OK, true, k', Some w') /\
    buffers_ w' = buffers_ w ++ [packed] /\
    shapes_ w' = shapes_ w ++ [shape] /\
    weights_sizes_ w' = weights_sizes_ w ++ [static_cast_size_t (Size shape)] /\
    is_filled_ w' = true /\
    b_shape_ k' = shape /\
    get_deleter (packed_b_ k') = mkBufferDeleter None /\
    destroy (packed_b_ k') = [] /\
    get (packed_b_ k') = get (hd packed (buffers_ w)) /\
    (buffers_ w = [] -> buffers_ w' = [packed] /\ get (packed_b_ k') = get packed).
Proof.
  intros Hp. unfold PrePack. cbn [Z.eqb Pos.eqb].
  unfold pack_call in Hp. rewrite Hp. cbn [andb negb std_move].
  do 2 eexists. split; [reflexivity|]. cbn.
  repeat apply conj; try reflexivity.
  - unfold destroy, is_set. cbn. now destruct (negb _).
  - unfold push_back. now destruct (buffers_ w).
  - intros ->. split; reflexivity.
Qed.

(** C9. Given a cached record with a first buffer and a first shape,
    [UseCachedPrePackedWeight] on input 1 returns success with
    [read_from_cache] set, leaves in [packed_b_] an alias to that buffer
    with a null deleter and in [b_shape_] that shape, and keeps the
    attributes.  Destroying the alias hands nothing back to an allocator;
    the call itself releases only what [packed_b_] held before. *)
Theorem UseCachedPrePackedWeight_adopts (k : MatMul_float elem)
    (cached : PrepackedWeight) (b0 : BufferUniquePtr) (bs : list BufferUniquePtr)
    (s0 : TensorShape) (ss : list TensorShape) :
  buffers_ cached = b0 :: bs ->
  shapes_ cached = s0 :: ss ->
  exists k',
    UseCachedPrePackedWeight k cached 1 = Some (OK, true, k', destroy (packed_b_ k)) /\
    packed_b_ k' = mkBufferUniquePtr (get b0) (mkBufferDeleter None) /\
    b_shape_ k' = s0 /\
    destroy (packed_b_ k') = [] /\
    trans_a_attr_ k' = trans_a_attr_ k /\
    trans_b_attr_ k' = trans_b_attr_ k /\
    alpha_attr_ k' = alpha_attr_ k.
Proof.
  intros Hb Hs. unfold UseCachedPrePackedWeight. cbn [Z.eqb Pos.eqb].
  rewrite Hb, Hs. eexists. split; [reflexivity|]. cbn.
  repeat apply conj; try reflexivity.
  unfold destroy, is_set. cbn. now destruct (negb _).
Qed.

(** C10. On input 1 [UseCachedPrePackedWeight] reads element 0 of the
    record's buffers and of its shapes whatever [is_filled_] and the
    recorded sizes are: the call is defined exactly when both vectors are
    non-empty, and it then returns success. *)
Theorem UseCachedPrePackedWeight_reads_unchecked (k : MatMul_float elem)
    (cached : PrepackedWeight) :
  (UseCachedPrePackedWeight k cached 1 <> None <->
   buffers_ cached <> [] /\ shapes_ cached <> []) /\
  (forall sizes filled,
      UseCachedPrePackedWeight k
        (mkPrepackedWeight (buffers_ cached) (shapes_ cached) sizes filled) 1 =
      UseCachedPrePackedWeight k cached 1) /\
  (buffers_ cached <> [] -> shapes_ cached <> [] ->
   exists k' released,
     UseCachedPrePackedWeight k cached 1 = Some (OK, true, k', released)).
Proof.
  unfold UseCachedPrePackedWeight. cbn [Z.eqb Pos.eqb buffers_ shapes_].
  destruct (buffers_ cached) as [|b0 bs], (shapes_ cached) as [|s0 ss];
    (split; [split|split; [reflexivity|]]);
    try solve [intros H; exfalso; apply H; reflexivity];
    try solve [intros [H1 H2]; congruence];
    try solve [intros H1 H2; congruence].
  - intros _. split; discriminate.
  - intros _ _. do 2 eexists. reflexivity.
Qed.

(** ** The output does not depend on what the buffer held *)

Variable elem_add elem_mul : elem -> elem -> elem.
Variable elem_is_zero : elem -> bool.
Variable packed_index : Z -> Z -> Z -> Z -> Z.

(** The zero literal tests as zero. *)
Hypothesis elem_is_zero_zero : elem_is_zero elem_zero = true.










(** * Further properties *)

(** ** Registration *)

Ltac by_version_ranges opset :=
  destruct (Nat.leb_spec 1 opset), (Nat.leb_spec opset 8),
    (Nat.leb_spec 9 opset), (Nat.leb_spec opset 12), (Nat.leb_spec 13 opset);
  cbn; try reflexivity; try lia.

(** X1. A kernel is registered for an element type at an opset exactly
    when the opset is at least 1 and the type is floating or the opset is at
    least 9; the class found depends on the type alone. *)
Theorem lookup_by_opset_and_type (opset : nat) (t : ElemType) :
  lookup opset t =
  if ((1 <=? opset)%nat && (is_floating t || (9 <=? opset)%nat))%bool
  then Some (class_of t) else None.
Proof.
  unfold lookup, registrations, matches, in_versions.
  cbn [find since_version end_version type_constraint].
  destruct t; cbn [existsb ElemType_eqb orb is_floating class_of];
    by_version_ranges opset.
Qed.

(** X2. No two registrations compete: for every opset and element type at
    most one entry of the table matches. *)
Theorem registrations_do_not_overlap (opset : nat) (t : ElemType) :
  (length (filter (matches opset t) registrations) <= 1)%nat.
Proof.
  unfold registrations, matches, in_versions.
  cbn [filter since_version end_version type_constraint].
  destruct t; cbn [existsb ElemType_eqb orb];
    by_version_ranges opset.
Qed.

(** ** [Compute]: status, allocation and descriptors *)

Lemma nth_error_map_seq {X : Type} (f : nat -> X) (n s i : nat) (x : X) :
  nth_error (map f (seq s n)) i = Some x -> (i < n)%nat /\ x = f (s + i)%nat.
Proof.
  revert s i. induction n as [|n IH]; intros s i H; cbn in H.
  - destruct i; discriminate.
  - destruct i as [|i]; cbn in H.
    + injection H as <-. split; [lia|]. f_equal. lia.
    + apply IH in H. destruct H as [Hi ->]. split; [lia|]. f_equal. lia.
Qed.

(** The descriptor at position [i] of the batch is the one lines 196-204
    build for batch [i]. *)
Lemma gemm_descriptor_nth (k : MatMul_float elem) (ctx : OpKernelContext)
    (st : Status) (log : list (Call elem))
    (ta tb : CBLAS_TRANSPOSE) (m n kk : Z)
    (data : list (MLAS_SGEMM_DATA_PARAMS elem)) (bs : Z) (tp i : nat)
    (d : MLAS_SGEMM_DATA_PARAMS elem) :
  Compute_float elem_zero helper_Compute k ctx = Some (st, log) ->
  In (CallMlasGemmBatch ta tb m n kk data bs tp) log ->
  nth_error data i = Some d ->
  exists a h,
    Input ctx 0 = Some a /\
    resolve_float helper_Compute k ctx a = ResolveOK h /\
    (i < length (offsets h))%nat /\
    d = descriptor elem_zero k ctx a h i.
Proof.
  intros H Hin Hd. which_call H Hin a Ha Hn h Hr Hc.
  unfold gemm_call in Hc. injection Hc as -> -> -> -> -> -> -> ->.
  apply nth_error_map_seq in Hd. destruct Hd as [Hi ->].
  exists a, h. repeat split; try assumption.
  unfold size, OutputOffsets in Hi. now rewrite length_map in Hi.
Qed.

(** X3. The status of [Compute] is the helper's: on a resolution error
    that error is returned, no output is allocated and nothing is
    multiplied; otherwise the status is OK and the output of the resolved
    shape is allocated.  The float path then makes exactly one GEMM batch
    call unless the output is empty, and the generic path one plain
    multiply per row of the offset table unless the output is empty. *)
Theorem Compute_status_follows_resolution :
  (forall (k : MatMul_float elem) (ctx : OpKernelContext) (a : Tensor)
          (st : Status) (log : list (Call elem)),
      Input ctx 0 = Some a ->
      Compute_float elem_zero helper_Compute k ctx = Some (st, log) ->
      match resolve_float helper_Compute k ctx a with
      | ResolveError e =>
        st = Fail e /\ filter allocates log = [] /\ filter multiplies log = []
      | ResolveOK h =>
        st = OK /\
        filter allocates log = [CallOutput 0 (OutputShape h)] /\
        filter multiplies log =
        if Size (OutputShape h) =? 0 then [] else [gemm_call elem_zero k ctx a h]
      end) /\
  (forall (ctx : OpKernelContext) (a b : Tensor)
          (st : Status) (log : list (Call elem)),
      Input ctx 0 = Some a ->
      Input ctx 1 = Some b ->
      Compute_generic elem helper_Compute ctx = Some (st, log) ->
      match helper_Compute (Shape a) (Shape b) false false with
      | ResolveError e =>
        st = Fail e /\ filter allocates log = [] /\ filter multiplies log = []
      | ResolveOK h =>
        st = OK /\
        filter allocates log = [CallOutput 0 (OutputShape h)] /\
        filter multiplies log =
        (if Size (OutputShape h) =? 0 then [] else matmul_calls ctx a b h) /\
        length (matmul_calls (elem := elem) ctx a b h) = length (offsets h)
      end).
Proof.
  assert (Hplain : forall ctx a b h,
             filter multiplies (matmul_calls (elem := elem) ctx a b h) =
             matmul_calls ctx a b h /\
             filter allocates (matmul_calls (elem := elem) ctx a b h) = []).
  { intros ctx a b h. unfold matmul_calls.
    induction (seq 0 (size (OutputOffsets h))) as [|i l [IH1 IH2]]; cbn.
    - split; reflexivity.
    - rewrite IH1, IH2. split; reflexivity. }
  split.
  - intros k ctx a st log Ha H. rewrite Compute_float_unfold, Ha in H.
    unfold resolution_log in H.
    destruct (resolve_float helper_Compute k ctx a) as [e|h].
    + injection H as <- <-. destruct (is_set (packed_b_ k)); repeat split.
    + destruct (Size (OutputShape h) =? 0); injection H as <- <-;
        destruct (is_set (packed_b_ k)); repeat split.
  - intros ctx a b st log Ha Hb H.
    rewrite (Compute_generic_plain ctx a b Ha Hb) in H. unfold plain_path in H.
    destruct (helper_Compute (Shape a) (Shape b) false false) as [e|h].
    + injection H as <- <-. repeat split.
    + assert (Hlen : length (matmul_calls (elem := elem) ctx a b h)
                     = length (offsets h)).
      { unfold matmul_calls, size, OutputOffsets.
        now rewrite length_map, length_seq, length_map. }
      destruct (Hplain ctx a b h) as [Hm Ha'].
      destruct (Size (OutputShape h) =? 0); injection H as <- <-.
      * repeat split. exact Hlen.
      * cbn. rewrite Hm, Ha'. repeat split. exact Hlen.
Qed.

(** What the arguments of the GEMM batch call are. *)
Lemma batch_size_of_call (k : MatMul_float elem)
    (ctx : OpKernelContext) (st : Status) (log : list (Call elem))
    (ta tb : CBLAS_TRANSPOSE) (m n kk : Z)
    (data : list (MLAS_SGEMM_DATA_PARAMS elem)) (bs : Z) (tp : nat) :
  Compute_float elem_zero helper_Compute k ctx = Some (st, log) ->
  In (CallMlasGemmBatch ta tb m n kk data bs tp) log ->
  exists a h,
    Input ctx 0 = Some a /\
    resolve_float helper_Compute k ctx a = ResolveOK h /\
    ta = CBLAS_of (effective_trans_a k a) /\
    tb = CBLAS_of (effective_trans_b k ctx) /\
    m = static_cast_size_t (M h) /\
    n = static_cast_size_t (N h) /\
    kk = static_cast_size_t (K h).
Proof.
  intros H Hin. which_call H Hin a Ha Hn h Hr Hc.
  unfold gemm_call in Hc. injection Hc as -> -> -> -> -> -> -> ->.
  exists a, h. repeat split; assumption.
Qed.

(** X4. The batch that [Compute] hands to the GEMM primitive is well
    formed: the batch size passed is the number of descriptors, which is
    the number of rows of the helper's offset table, and M, N and K are the
    helper's, converted to [size_t]. *)
Theorem batch_size_is_descriptor_count (k : MatMul_float elem)
    (ctx : OpKernelContext) (st : Status) (log : list (Call elem))
    (ta tb : CBLAS_TRANSPOSE) (m n kk : Z)
    (data : list (MLAS_SGEMM_DATA_PARAMS elem)) (bs : Z) (tp : nat) :
  Compute_float elem_zero helper_Compute k ctx = Some (st, log) ->
  In (CallMlasGemmBatch ta tb m n kk data bs tp) log ->
  bs = Z.of_nat (length data) /\
  exists a h,
    Input ctx 0 = Some a /\
    resolve_float helper_Compute k ctx a = ResolveOK h /\
    length data = length (offsets h) /\
    m = static_cast_size_t (M h) /\
    n = static_cast_size_t (N h) /\
    kk = static_cast_size_t (K h) /\
    tp = GetOperatorThreadPool ctx.
Proof.
  intros H Hin. which_call H Hin a Ha Hn h Hr Hc.
  unfold gemm_call in Hc. injection Hc as -> -> -> -> -> -> -> ->.
  rewrite length_map, length_seq. split; [reflexivity|].
  exists a, h. repeat split; try assumption.
  unfold size, OutputOffsets. now rewrite length_map.
Qed.

(** X5. When the helper's M, N and K are below 2^31, the descriptor at
    position [i] of the batch is as the GEMM primitive needs it: A and C
    at the left and output offsets of batch [i], B at the right offset
    unless packed, leading dimensions selected by the effective
    transposition flags, the instance's alpha, and beta zero. *)
Theorem descriptors_for_int_sized_dims (k : MatMul_float elem)
    (ctx : OpKernelContext) (a : Tensor) (h : MatMulComputeHelper)
    (st : Status) (log : list (Call elem))
    (ta tb : CBLAS_TRANSPOSE) (m n kk : Z)
    (data : list (MLAS_SGEMM_DATA_PARAMS elem)) (bs : Z) (tp i : nat)
    (d : MLAS_SGEMM_DATA_PARAMS elem) :
  Input ctx 0 = Some a ->
  resolve_float helper_Compute k ctx a = ResolveOK h ->
  0 <= M h < 2 ^ 31 -> 0 <= N h < 2 ^ 31 -> 0 <= K h < 2 ^ 31 ->
  Compute_float elem_zero helper_Compute k ctx = Some (st, log) ->
  In (CallMlasGemmBatch ta tb m n kk data bs tp) log ->
  nth_error data i = Some d ->
  m = M h /\ n = N h /\ kk = K h /\
  ta = CBLAS_of (effective_trans_a k a) /\
  tb = CBLAS_of (effective_trans_b k ctx) /\
  A d = DataRaw a + at_ (LeftOffsets h) i /\
  lda d = (if effective_trans_a k a then M h else K h) /\
  (is_set (packed_b_ k) = true -> B d = get (packed_b_ k)) /\
  (forall b, is_set (packed_b_ k) = false -> Input ctx 1 = Some b ->
             B d = DataRaw b + at_ (RightOffsets h) i) /\
  ldb d = (if effective_trans_b k ctx then K h else N h) /\
  C d = output_buffer ctx 0 (OutputShape h) + at_ (OutputOffsets h) i /\
  ldc d = N h /\
  alpha d = alpha_attr_ k /\
  beta d = elem_zero /\
  BIsPacked d = is_set (packed_b_ k).
Proof.
  intros Ha Hr HM HN HK H Hin Hd.
  destruct (batch_size_of_call k ctx st log ta tb m n kk data bs tp H Hin)
    as (a' & h' & Ha' & Hr' & -> & -> & -> & -> & ->).
  destruct (gemm_descriptor_nth _ _ _ _ _ _ _ _ _ _ _ _ _ _ H Hin Hd)
    as (a'' & h'' & Ha'' & Hr'' & Hi & ->).
  assert (a' = a) as -> by congruence. assert (a'' = a) as -> by congruence.
  assert (h' = h) as -> by congruence. assert (h'' = h) as -> by congruence.
  assert (H64 : 2 ^ 31 < 2 ^ 64) by reflexivity.
  destruct (descriptor_leading_dimensions k ctx a h i HM HN HK) as (Hlda & Hldb & Hldc).
  rewrite !static_cast_size_t_small by lia.
  repeat apply conj; try reflexivity; try assumption.
  - intros Hset. unfold descriptor. cbn [B]. now rewrite Hset.
  - intros b Hset Hb. unfold descriptor, raw_B. cbn [B]. now rewrite Hset, Hb.
Qed.

(** ** Leading dimensions and the cast through [int] *)

Lemma through_int_exact_iff (x : Z) :
  0 <= x < 2 ^ 63 ->
  size_t_of_int (static_cast_int (static_cast_size_t x)) = x <-> x < 2 ^ 31.
Proof.
  intros Hx.
  assert (H63 : 2 ^ 63 < 2 ^ 64) by reflexivity.
  assert (H31 : 2 ^ 31 < 2 ^ 63) by reflexivity.
  assert (H32 : 2 ^ 32 = 2 * 2 ^ 31) by reflexivity.
  rewrite (static_cast_size_t_small x) by lia.
  split.
  - intros H. unfold size_t_of_int, static_cast_size_t, size_t_modulus,
      static_cast_int in H.
    pose proof (Z.mod_pos_bound (x + 2 ^ 31) (2 ^ 32) ltac:(lia)) as Hr.
    set (r := (x + 2 ^ 31) mod 2 ^ 32) in *.
    destruct (Z_lt_le_dec r (2 ^ 31)) as [Hlt|Hge].
    + rewrite <- (Z.mod_add (r - 2 ^ 31) 1 (2 ^ 64)) in H by lia.
      rewrite Z.mod_small in H by lia. lia.
    + rewrite Z.mod_small in H by lia. lia.
  - intros H. apply through_int_small. lia.
Qed.

(** X6. For helper dimensions that fit [ptrdiff_t], the leading dimension
    stored for A, and likewise for B, is the dimension the effective
    transposition flag selects exactly when that dimension is below 2^31;
    the leading dimension of the output is N whatever its size. *)
Theorem leading_dimension_exact_iff_int_sized (k : MatMul_float elem)
    (ctx : OpKernelContext) (a : Tensor) (h : MatMulComputeHelper)
    (st : Status) (log : list (Call elem))
    (ta tb : CBLAS_TRANSPOSE) (m n kk : Z)
    (data : list (MLAS_SGEMM_DATA_PARAMS elem)) (bs : Z) (tp i : nat)
    (d : MLAS_SGEMM_DATA_PARAMS elem) :
  Input ctx 0 = Some a ->
  resolve_float helper_Compute k ctx a = ResolveOK h ->
  0 <= M h < 2 ^ 63 -> 0 <= N h < 2 ^ 63 -> 0 <= K h < 2 ^ 63 ->
  Compute_float elem_zero helper_Compute k ctx = Some (st, log) ->
  In (CallMlasGemmBatch ta tb m n kk data bs tp) log ->
  nth_error data i = Some d ->
  (lda d = (if effective_trans_a k a then M h else K h) <->
   (if effective_trans_a k a then M h else K h) < 2 ^ 31) /\
  (ldb d = (if effective_trans_b k ctx then K h else N h) <->
   (if effective_trans_b k ctx then K h else N h) < 2 ^ 31) /\
  ldc d = N h.
Proof.
  intros Ha Hr HM HN HK H Hin Hd.
  destruct (gemm_descriptor_nth _ _ _ _ _ _ _ _ _ _ _ _ _ _ H Hin Hd)
    as (a' & h' & Ha' & Hr' & Hi & ->).
  assert (a' = a) as -> by congruence. assert (h' = h) as -> by congruence.
  assert (H63 : 2 ^ 63 < 2 ^ 64) by reflexivity.
  unfold descriptor. cbn [lda ldb ldc].
  split; [|split].
  - destruct (effective_trans_a k a); now apply through_int_exact_iff.
  - destruct (effective_trans_b k ctx); now apply through_int_exact_iff.
  - apply static_cast_size_t_small. lia.
Qed.

(** ** A missing raw B *)

(** X7. When no packed buffer is held and the context has no input 1, the
    float [Compute] does not touch the missing tensor.  It resolves the
    shape of A against the instance's [b_shape_], with the transposition of
    B decided by the rank of [b_shape_], and its status is that of this
    resolution: the helper's error when it fails, OK otherwise.  When the
    resolved output is not empty it makes the GEMM call, every descriptor
    marked unpacked with a B pointer that is the null pointer plus the
    right offset. *)
Theorem Compute_float_without_raw_B (k : MatMul_float elem)
    (ctx : OpKernelContext) (a : Tensor) :
  is_set (packed_b_ k) = false ->
  Input ctx 0 = Some a ->
  Input ctx 1 = None ->
  exists st log,
    Compute_float elem_zero helper_Compute k ctx = Some (st, log) /\
    In (CallHelperCompute (Shape a) (b_shape_ k)
          (trans_a_attr_ k && negb (NumDimensions (Shape a) =? 1))
          (trans_b_attr_ k && negb (NumDimensions (b_shape_ k) =? 1))) log /\
    (forall l r ta tb, In (CallHelperCompute l r ta tb) log -> r = b_shape_ k) /\
    match helper_Compute (Shape a) (b_shape_ k)
            (trans_a_attr_ k && negb (NumDimensions (Shape a) =? 1))
            (trans_b_attr_ k && negb (NumDimensions (b_shape_ k) =? 1)) with
    | ResolveError e =>
      st = Fail e /\ filter allocates log = [] /\ filter multiplies log = []
    | ResolveOK h =>
      st = OK /\
      filter allocates log = [CallOutput 0 (OutputShape h)] /\
      filter multiplies log =
      if Size (OutputShape h) =? 0 then [] else [gemm_call elem_zero k ctx a h]
    end /\
    (forall ta tb m n kk data bs tp i d,
        In (CallMlasGemmBatch ta tb m n kk data bs tp) log ->
        nth_error data i = Some d ->
        BIsPacked d = false /\
        exists h, resolve_float helper_Compute k ctx a = ResolveOK h /\
                  B d = nullptr + at_ (RightOffsets h) i).
Proof.
  intros Hset Ha Hb.
  assert (Hshape : effective_b_shape k ctx = b_shape_ k).
  { unfold effective_b_shape, raw_B. now rewrite Hset, Hb. }
  assert (Hres : resolve_float helper_Compute k ctx a =
                 helper_Compute (Shape a) (b_shape_ k)
                   (trans_a_attr_ k && negb (NumDimensions (Shape a) =? 1))
                   (trans_b_attr_ k && negb (NumDimensions (b_shape_ k) =? 1))).
  { unfold resolve_float, effective_trans_a, effective_trans_b.
    now rewrite Hshape. }
  destruct (Compute_float elem_zero helper_Compute k ctx) as [[st log]|] eqn:H.
  - exists st, log. split; [reflexivity|]. split; [|split; [|split]].
    + pose proof H as H'. apply Compute_float_returned in H'.
      destruct H' as (a' & tl & Ha' & -> & _).
      assert (a' = a) as -> by congruence.
      apply in_app_iff. left. apply in_resolution_log. right. right.
      unfold effective_trans_a, effective_trans_b. now rewrite Hshape.
    + intros l r ta tb Hin. which_call H Hin a' Ha' Hn h Hr Hc.
      injection Hc as -> -> -> ->. exact Hshape.
    + rewrite <- Hres. rewrite Compute_float_unfold, Ha in H.
      unfold resolution_log in H. rewrite Hset in H.
      destruct (resolve_float helper_Compute k ctx a) as [e|h].
      * injection H as <- <-. repeat split.
      * destruct (Size (OutputShape h) =? 0); injection H as <- <-; repeat split.
    + intros ta tb m n kk data bs tp i d Hin Hd.
      destruct (gemm_descriptor_nth _ _ _ _ _ _ _ _ _ _ _ _ _ _ H Hin Hd)
        as (a' & h & Ha' & Hr & Hi & ->).
      assert (a' = a) as -> by congruence.
      split; [exact Hset|]. exists h. split; [exact Hr|].
      unfold descriptor, raw_B. cbn [B]. now rewrite Hset, Hb.
  - rewrite Compute_float_unfold, Ha in H.
    destruct (resolve_float helper_Compute k ctx a) as [e|h]; [discriminate|].
    destruct (Size (OutputShape h) =? 0); discriminate.
Qed.

(** ** The two [Compute] bodies side by side *)

Lemma operands_matmul_calls (ctx : OpKernelContext) (a b : Tensor)
    (h : MatMulComputeHelper) :
  flat_map operands (matmul_calls (elem := elem) ctx a b h) =
  map (fun i => (DataRaw a + at_ (LeftOffsets h) i,
                 DataRaw b + at_ (RightOffsets h) i,
                 output_buffer ctx 0 (OutputShape h) + at_ (OutputOffsets h) i))
      (seq 0 (size (OutputOffsets h))).
Proof.
  unfold matmul_calls.
  induction (seq 0 (size (OutputOffsets h))) as [|i l IH]; cbn.
  - reflexivity.
  - now rewrite IH.
Qed.

Lemma filter_bookkeeping_matmul_calls (ctx : OpKernelContext) (a b : Tensor)
    (h : MatMulComputeHelper) :
  filter (fun c => negb (multiplies c)) (matmul_calls (elem := elem) ctx a b h) = [].
Proof.
  unfold matmul_calls.
  induction (seq 0 (size (OutputOffsets h))) as [|i l IH]; cbn; auto.
Qed.

(** X13. On an instance without packed buffer whose effective
    transposition flags are both off, the float [Compute] and the generic
    [Compute] do the same thing up to how the multiplications are handed
    over: same status, same requests, shape resolution and output
    allocation, and the same (A, B, C) pointers, batch by batch in the same
    order. *)
Theorem float_path_agrees_with_generic_path (k : MatMul_float elem)
    (ctx : OpKernelContext) (a b : Tensor) :
  is_set (packed_b_ k) = false ->
  Input ctx 0 = Some a ->
  Input ctx 1 = Some b ->
  effective_trans_a k a = false ->
  effective_trans_b k ctx = false ->
  exists st log_float log_generic,
    Compute_float elem_zero helper_Compute k ctx = Some (st, log_float) /\
    Compute_generic elem helper_Compute ctx = Some (st, log_generic) /\
    filter (fun c => negb (multiplies c)) log_float =
    filter (fun c => negb (multiplies c)) log_generic /\
    flat_map operands log_float = flat_map operands log_generic.
Proof.
  intros Hset Ha Hb Hta Htb.
  assert (Hshape : effective_b_shape k ctx = Shape b).
  { unfold effective_b_shape, raw_B. now rewrite Hset, Hb. }
  rewrite Compute_float_unfold, Ha, (Compute_generic_plain ctx a b Ha Hb).
  unfold resolve_float, resolution_log, plain_path.
  rewrite Hshape, Hta, Htb, Hset.
  destruct (helper_Compute (Shape a) (Shape b) false false) as [e|h].
  - do 3 eexists. repeat split.
  - destruct (Size (OutputShape h) =? 0).
    + do 3 eexists. repeat split.
    + do 3 eexists. split; [reflexivity|]. split; [reflexivity|].
      cbn [app filter flat_map multiplies negb operands].
      rewrite filter_bookkeeping_matmul_calls, operands_matmul_calls.
      split; [reflexivity|].
      unfold gemm_call. cbn [operands app]. rewrite app_nil_r, map_map.
      apply map_ext. intros i. unfold descriptor, raw_B.
      cbn [A B C]. now rewrite Hset, Hb.
Qed.

(** ** Packing changes the B side only *)

Lemma blank_descriptor_eq (k k' : MatMul_float elem) (ctx ctx' : OpKernelContext)
    (a : Tensor) (h : MatMulComputeHelper) (i : nat) :
  effective_trans_a k' a = effective_trans_a k a ->
  effective_trans_b k' ctx' = effective_trans_b k ctx ->
  alpha_attr_ k' = alpha_attr_ k ->
  (forall j s, output_buffer ctx' j s = output_buffer ctx j s) ->
  blank_B (descriptor elem_zero k' ctx' a h i) =
  blank_B (descriptor elem_zero k ctx a h i).
Proof.
  intros Hta Htb Hal Hy. unfold blank_B, descriptor.
  cbn [A lda ldb C ldc alpha beta]. now rewrite Hta, Htb, Hal, Hy.
Qed.

(** X14. Take an instance without packed buffer run on a context whose
    input 1 is the tensor B, and an instance with the same attributes that
    holds a packed buffer recorded with B's shape, run on any context that
    differs at most in input 1.  The two runs return the same status and
    make the same calls, except that the packed run does not request input
    1 and that the descriptors differ in their B pointer and packed flag:
    shape resolution, output allocation, transposition flags, M, N, K,
    batch size, A and C pointers, leading dimensions, alpha and beta all
    coincide. *)
Theorem packing_changes_only_B (k k' : MatMul_float elem)
    (ctx ctx' : OpKernelContext) (b : Tensor) :
  is_set (packed_b_ k) = false ->
  is_set (packed_b_ k') = true ->
  trans_a_attr_ k' = trans_a_attr_ k ->
  trans_b_attr_ k' = trans_b_attr_ k ->
  alpha_attr_ k' = alpha_attr_ k ->
  Input ctx 1 = Some b ->
  b_shape_ k' = Shape b ->
  same_but_B ctx ctx' ->
  match Compute_float elem_zero helper_Compute k ctx,
        Compute_float elem_zero helper_Compute k' ctx' with
  | Some (st, log), Some (st', log') => st' = st /\ modulo_B log' = modulo_B log
  | None, None => True
  | _, _ => False
  end.
Proof.
  intros Hset Hset' Hta Htb Hal Hb Hshape' (Ha & Hy & Htp).
  assert (Hs : effective_b_shape k ctx = Shape b).
  { unfold effective_b_shape, raw_B. now rewrite Hset, Hb. }
  assert (Hs' : effective_b_shape k' ctx' = Shape b).
  { unfold effective_b_shape, raw_B. now rewrite Hset'. }
  rewrite !Compute_float_unfold, Ha.
  destruct (Input ctx 0) as [a|]; [|exact I].
  assert (Ha' : effective_trans_a k' a = effective_trans_a k a).
  { unfold effective_trans_a. now rewrite Hta. }
  assert (Hb' : effective_trans_b k' ctx' = effective_trans_b k ctx).
  { unfold effective_trans_b. now rewrite Htb, Hs, Hs'. }
  unfold resolve_float, resolution_log. rewrite Ha', Hb', Hs, Hs', Hset, Hset'.
  destruct (helper_Compute (Shape a) (Shape b) (effective_trans_a k a)
                           (effective_trans_b k ctx)) as [e|h].
  - split; reflexivity.
  - destruct (Size (OutputShape h) =? 0).
    + split; reflexivity.
    + split; [reflexivity|]. unfold modulo_B, gemm_call.
      cbn [app filter requests_B negb map forget_B].
      rewrite Ha', Hb', Htp, !map_map.
      rewrite (map_ext (fun i => blank_B (descriptor elem_zero k' ctx' a h i))
                       (fun i => blank_B (descriptor elem_zero k ctx a h i))
                       (fun i => blank_descriptor_eq k k' ctx ctx' a h i
                                   Ha' Hb' Hal Hy)).
      reflexivity.
Qed.

(** ** [PrePack] and [UseCachedPrePackedWeight]: what they keep *)

Lemma setup_step_attributes (k k' : MatMul_float elem) :
  setup_step GemmPackBFp32 k k' ->
  trans_a_attr_ k' = trans_a_attr_ k /\
  trans_b_attr_ k' = trans_b_attr_ k /\
  alpha_attr_ k' = alpha_attr_ k.
Proof.
  intros [k0 tensor idx w alloc st p k1 w' H|k0 cached idx st r k1 released H].
  - unfold PrePack in H. destruct (idx =? 1).
    + destruct GemmPackBFp32 as [[p' pb] sh]. destruct w as [w|].
      * destruct (p' && negb false); cbn in H; injection H as <- <- <- <-;
          repeat split.
      * injection H as <- <- <- <-. repeat split.
    + injection H as <- <- <- <-. repeat split.
  - unfold UseCachedPrePackedWeight in H. destruct (idx =? 1).
    + destruct (buffers_ cached); [discriminate|].
      destruct (shapes_ cached); [discriminate|].
      injection H as <- <- <- <-. repeat split.
    + injection H as <- <- <- <-. repeat split.
Qed.

(** X8. Whatever sequence of [PrePack] and [UseCachedPrePackedWeight]
    calls an instance goes through, with whatever arguments, its transA,
    transB and alpha attributes stay what they were. *)
Theorem setup_preserves_attributes (k k' : MatMul_float elem) :
  setup GemmPackBFp32 k k' ->
  trans_a_attr_ k' = trans_a_attr_ k /\
  trans_b_attr_ k' = trans_b_attr_ k /\
  alpha_attr_ k' = alpha_attr_ k.
Proof.
  induction 1 as [k|k k1 k2 Hstep _ (IHa & IHb & IHc)].
  - repeat split.
  - destruct (setup_step_attributes k k1 Hstep) as (Ha & Hb & Hc).
    repeat split; congruence.
Qed.

Lemma releases_push_back (l : list BufferUniquePtr) (p : BufferUniquePtr) :
  releases (push_back l p) = releases l ++ destroy p.
Proof.
  unfold releases, push_back. rewrite flat_map_app. cbn. now rewrite app_nil_r.
Qed.

Lemma destroy_alias (p : Ptr) :
  destroy (mkBufferUniquePtr p (mkBufferDeleter None)) = [].
Proof. unfold destroy. cbn. now destruct (is_set _). Qed.

(** X9. [PrePack] returns a caching record exactly when it was given one,
    and never drops or reorders what the record held: the record comes
    back as it was when [is_packed] is false, and with one buffer, one
    shape and one size appended, and marked filled, when [is_packed] is
    true.  Vectors of equal length stay of equal length. *)
Theorem PrePack_record_only_grows (k : MatMul_float elem) (tensor : Tensor)
    (input_idx : Z) (w : option PrepackedWeight) (alloc : AllocatorPtr) :
  exists is_packed k' w',
    PrePack GemmPackBFp32 k tensor input_idx w alloc = (OK, is_packed, k', w') /\
    match w, w' with
    | None, None => True
    | Some r, Some r' =>
      (is_packed = false /\ r' = r) \/
      (is_packed = true /\
       exists packed shape,
         buffers_ r' = buffers_ r ++ [packed] /\
         shapes_ r' = shapes_ r ++ [shape] /\
         weights_sizes_ r' = weights_sizes_ r ++ [static_cast_size_t (Size shape)] /\
         is_filled_ r' = true)
    | _, _ => False
    end /\
    (forall r r', w = Some r -> w' = Some r' ->
                  length (buffers_ r) = length (shapes_ r) ->
                  length (shapes_ r) = length (weights_sizes_ r) ->
                  length (buffers_ r') = length (shapes_ r') /\
                  length (shapes_ r') = length (weights_sizes_ r')).
Proof.
  unfold PrePack. destruct (input_idx =? 1).
  - destruct GemmPackBFp32 as [[p pb] sh]. destruct w as [r|].
    + destruct p; cbn [andb negb std_move].
      * do 3 eexists. split; [reflexivity|]. split.
        -- right. split; [reflexivity|]. exists pb, sh. repeat split.
        -- intros r0 r' [= <-] [= <-] H1 H2. cbn. unfold push_back.
           rewrite !length_app. cbn. lia.
      * do 3 eexists. split; [reflexivity|]. split.
        -- left. split; reflexivity.
        -- intros r0 r' [= <-] [= <-] H1 H2. now split.
    + do 3 eexists. split; [reflexivity|]. split; [exact I|]. discriminate.
  - do 3 eexists. split; [reflexivity|]. split.
    + destruct w; [left; split; reflexivity|exact I].
    + intros r r' -> [= <-] H1 H2. now split.
Qed.

(** X10. [PrePack] neither loses nor duplicates the duty to release a
    buffer.  What the record and the instance together hand back to
    allocators when destroyed after the call is what the record held
    before plus what the pack primitive left in [packed_b_] (or, for an
    index other than 1, what the instance held): a donated buffer is
    released by the record alone, the instance's alias releasing nothing. *)
Theorem PrePack_conserves_releases (k : MatMul_float elem) (tensor : Tensor)
    (input_idx : Z) (w : option PrepackedWeight) (alloc : AllocatorPtr) :
  exists is_packed k' w',
    PrePack GemmPackBFp32 k tensor input_idx w alloc = (OK, is_packed, k', w') /\
    held w' ++ destroy (packed_b_ k') =
    held w ++ destroy (if input_idx =? 1
                       then snd (fst (pack_call GemmPackBFp32 k tensor alloc))
                       else packed_b_ k) /\
    (is_packed = true -> w <> None -> destroy (packed_b_ k') = []).
Proof.
  unfold PrePack, pack_call. destruct (input_idx =? 1).
  - destruct GemmPackBFp32 as [[p pb] sh]. cbn [fst snd]. destruct w as [r|].
    + destruct p; cbn [andb negb std_move].
      * do 3 eexists. split; [reflexivity|]. cbn [held buffers_ packed_b_ set_packed].
        rewrite releases_push_back, destroy_alias, app_nil_r. now split.
      * do 3 eexists. split; [reflexivity|]. split; [reflexivity|discriminate].
    + do 3 eexists. split; [reflexivity|]. split; [reflexivity|].
      intros _ Hw. now contradiction Hw.
  - do 3 eexists. split; [reflexivity|]. split; [reflexivity|discriminate].
Qed.

(** ** Donation followed by adoption *)

(** X11. Round trip through the cache.  When one instance packs B into an
    empty caching record and another instance adopts that record, the
    adopter ends up with the very packed pointer and recorded shape of the
    donor, both non-owning; with equal attributes the two instances are
    equal, so [Compute] gives the same result on both in every context. *)
Theorem donate_then_adopt (k1 k2 : MatMul_float elem) (tensor : Tensor)
    (w : PrepackedWeight) (alloc : AllocatorPtr)
    (packed : BufferUniquePtr) (shape : TensorShape) :
  pack_call GemmPackBFp32 k1 tensor alloc = (true, packed, shape) ->
  buffers_ w = [] ->
  shapes_ w = [] ->
  exists k1' w' k2',
    PrePack GemmPackBFp32 k1 tensor 1 (Some w) alloc = (OK, true, k1', Some w') /\
    UseCachedPrePackedWeight k2 w' 1 = Some (OK, true, k2', destroy (packed_b_ k2)) /\
    packed_b_ k2' = packed_b_ k1' /\
    b_shape_ k2' = b_shape_ k1' /\
    get (packed_b_ k2') = get packed /\
    b_shape_ k2' = shape /\
    destroy (packed_b_ k1') = [] /\
    destroy (packed_b_ k2') = [] /\
    (trans_a_attr_ k2 = trans_a_attr_ k1 ->
     trans_b_attr_ k2 = trans_b_attr_ k1 ->
     alpha_attr_ k2 = alpha_attr_ k1 ->
     forall ctx, Compute_float elem_zero helper_Compute k2' ctx =
                 Compute_float elem_zero helper_Compute k1' ctx).
Proof.
  intros Hp Hb Hs. unfold PrePack, UseCachedPrePackedWeight.
  cbn [Z.eqb Pos.eqb]. unfold pack_call in Hp. rewrite Hp.
  cbn [andb negb std_move]. do 3 eexists. split; [reflexivity|].
  cbn [buffers_ shapes_]. rewrite Hb, Hs. cbn [push_back app hd].
  split; [reflexivity|]. cbn [packed_b_ b_shape_ set_packed get].
  repeat apply conj; try reflexivity; try apply destroy_alias.
  intros Ha Hb' Hc ctx. unfold set_packed. now rewrite Ha, Hb', Hc.
Qed.

Lemma requests_input_1_iff (k : MatMul_float elem) (ctx : OpKernelContext)
    (st : Status) (log : list (Call elem)) :
  Compute_float elem_zero helper_Compute k ctx = Some (st, log) ->
  In (CallInput 1) log <-> is_set (packed_b_ k) = false.
Proof.
  intros H. split.
  - intros Hin. which_call H Hin a Ha Hn h Hr Hc. exact Hn.
  - intros Hset. apply Compute_float_returned in H.
    destruct H as (a & tl & _ & -> & _).
    apply in_app_iff. left. apply in_resolution_log. auto.
Qed.

(** X12. After adopting a cached record, [Compute] runs the packed path
    exactly when the record's first buffer pointer is not null: then it
    never requests input 1, resolves against the cached shape and points
    every descriptor at the cached buffer.  With a null pointer in the
    record the call still reports [read_from_cache], and [Compute] goes on
    requesting input 1. *)
Theorem adopted_path_iff_buffer_not_null (k : MatMul_float elem)
    (cached : PrepackedWeight) (b0 : BufferUniquePtr) (bs : list BufferUniquePtr)
    (s0 : TensorShape) (ss : list TensorShape) :
  buffers_ cached = b0 :: bs ->
  shapes_ cached = s0 :: ss ->
  exists k',
    UseCachedPrePackedWeight k cached 1 = Some (OK, true, k', destroy (packed_b_ k)) /\
    forall ctx st log,
      Compute_float elem_zero helper_Compute k' ctx = Some (st, log) ->
      (In (CallInput 1) log <-> get b0 = nullptr) /\
      (get b0 <> nullptr ->
       (forall l r ta tb, In (CallHelperCompute l r ta tb) log -> r = s0) /\
       descriptors_all (fun d => BIsPacked d = true /\ B d = get b0) log).
Proof.
  intros Hb Hs. unfold UseCachedPrePackedWeight. cbn [Z.eqb Pos.eqb].
  rewrite Hb, Hs. eexists. split; [reflexivity|].
  intros ctx st log H.
  set (k' := set_packed k (mkBufferUniquePtr (get b0) (mkBufferDeleter None)) s0) in *.
  assert (Hset : is_set (packed_b_ k') = negb (get b0 =? nullptr)) by reflexivity.
  split.
  - rewrite (requests_input_1_iff k' ctx st log H), Hset.
    rewrite negb_false_iff. apply Z.eqb_eq.
  - intros Hnn. apply Z.eqb_neq in Hnn. rewrite Hnn in Hset. cbn [negb] in Hset.
    split.
    + intros l r ta tb Hin. which_call H Hin a Ha Hn h Hr Hc.
      injection Hc as -> -> -> ->.
      unfold effective_b_shape, raw_B. now rewrite Hset.
    + apply (descriptors_all_intro _ _ _ _ _ H). intros a h i _ _ _.
      unfold descriptor. cbn [BIsPacked B]. now rewrite Hset.
Qed.

(** ** The generic path and the cast to [int] *)

Lemma static_cast_int_exact_iff (x : Z) :
  static_cast_int x = x <-> - 2 ^ 31 <= x < 2 ^ 31.
Proof.
  split.
  - intros H. unfold static_cast_int in H.
    pose proof (Z.mod_pos_bound (x + 2 ^ 31) (2 ^ 32) ltac:(lia)) as Hr. lia.
  - apply static_cast_int_small.
Qed.

(** X15. Every plain multiply of the generic [Compute] belongs to one row
    of the offset table, with the A, B and output pointers at that row's
    offsets; the M, N and K it is given are the helper's exactly when they
    fit a 32-bit [int]. *)
Theorem generic_multiply_arguments (ctx : OpKernelContext) (a b : Tensor)
    (h : MatMulComputeHelper) (st : Status) (log : list (Call elem))
    (m n kk : Z) (pa pb py : Ptr) (tp : nat) :
  Input ctx 0 = Some a ->
  Input ctx 1 = Some b ->
  helper_Compute (Shape a) (Shape b) false false = ResolveOK h ->
  Compute_generic elem helper_Compute ctx = Some (st, log) ->
  In (CallMatMul m n kk pa pb py tp) log ->
  (m = M h <-> - 2 ^ 31 <= M h < 2 ^ 31) /\
  (n = N h <-> - 2 ^ 31 <= N h < 2 ^ 31) /\
  (kk = K h <-> - 2 ^ 31 <= K h < 2 ^ 31) /\
  Size (OutputShape h) <> 0 /\
  exists i, (i < length (offsets h))%nat /\
            pa = DataRaw a + at_ (LeftOffsets h) i /\
            pb = DataRaw b + at_ (RightOffsets h) i /\
            py = output_buffer ctx 0 (OutputShape h) + at_ (OutputOffsets h) i.
Proof.
  intros Ha Hb Hr H Hin.
  rewrite (Compute_generic_plain ctx a b Ha Hb) in H. unfold plain_path in H.
  rewrite Hr in H.
  destruct (Size (OutputShape h) =? 0) eqn:Es; injection H as <- <-.
  - cbn in Hin. destruct Hin as [Hin|[Hin|[Hin|[Hin|[]]]]]; discriminate Hin.
  - cbn in Hin. destruct Hin as [Hin|[Hin|[Hin|[Hin|Hin]]]]; try discriminate Hin.
    unfold matmul_calls in Hin. apply in_map_iff in Hin.
    destruct Hin as (i & Hc & Hi). injection Hc as <- <- <- <- <- <- <-.
    apply in_seq in Hi. unfold size, OutputOffsets in Hi.
    rewrite length_map in Hi.
    split; [apply static_cast_int_exact_iff|].
    split; [apply static_cast_int_exact_iff|].
    split; [apply static_cast_int_exact_iff|].
    split; [now apply Z.eqb_neq|].
    exists i. repeat split. lia.
Qed.

(** ** What [Compute] reads of an instance without packed buffer *)

Lemma Compute_float_unpacked_ext (k k' : MatMul_float elem)
    (ctx : OpKernelContext) (b : Tensor) :
  is_set (packed_b_ k) = false ->
  is_set (packed_b_ k') = false ->
  trans_a_attr_ k' = trans_a_attr_ k ->
  trans_b_attr_ k' = trans_b_attr_ k ->
  alpha_attr_ k' = alpha_attr_ k ->
  Input ctx 1 = Some b ->
  Compute_float elem_zero helper_Compute k' ctx =
  Compute_float elem_zero helper_Compute k ctx.
Proof.
  intros Hset Hset' Hta Htb Hal Hb. unfold Compute_float.
  now rewrite Hset, Hset', Hta, Htb, Hal, Hb.
Qed.

(** X16. A [PrePack] that does not pack is invisible to [Compute] as long
    as the raw B is supplied: on an instance without packed buffer, when
    [is_packed] comes back false (the primitive leaving no buffer behind
    when it declines), the caching record is returned untouched and
    [Compute] gives the same result as before the call in every context
    that has input 1, whatever the primitive wrote into [b_shape_]. *)
Theorem PrePack_without_packing_is_invisible (k : MatMul_float elem)
    (tensor : Tensor) (input_idx : Z) (w : option PrepackedWeight)
    (alloc : AllocatorPtr) :
  is_set (packed_b_ k) = false ->
  (fst (fst (pack_call GemmPackBFp32 k tensor alloc)) = false ->
   is_set (snd (fst (pack_call GemmPackBFp32 k tensor alloc))) = false) ->
  exists is_packed k' w',
    PrePack GemmPackBFp32 k tensor input_idx w alloc = (OK, is_packed, k', w') /\
    (is_packed = false ->
     w' = w /\
     forall ctx b, Input ctx 1 = Some b ->
                   Compute_float elem_zero helper_Compute k' ctx =
                   Compute_float elem_zero helper_Compute k ctx).
Proof.
  intros Hset Hdecline. unfold PrePack, pack_call in *.
  destruct (input_idx =? 1).
  - destruct GemmPackBFp32 as [[p pb] sh]. cbn [fst snd] in Hdecline.
    destruct w as [r|].
    + destruct p; cbn [andb negb std_move]; do 3 eexists;
        (split; [reflexivity|]); intros Hp; [discriminate|].
      split; [reflexivity|]. intros ctx b Hb.
      apply Compute_float_unpacked_ext with (b := b); auto.
    + do 3 eexists. split; [reflexivity|]. intros ->.
      split; [reflexivity|]. intros ctx b Hb.
      apply Compute_float_unpacked_ext with (b := b); auto.
  - do 3 eexists. split; [reflexivity|]. intros _. split; reflexivity.
Qed.

(** ** Adopting twice *)

(** X17. Adopting the same cached record a second time changes nothing:
    the instance is the one the first adoption left, and the second call
    hands nothing back to an allocator, the alias it replaces having a null
    deleter. *)
Theorem adoption_is_idempotent (k : MatMul_float elem)
    (cached : PrepackedWeight) (b0 : BufferUniquePtr) (bs : list BufferUniquePtr)
    (s0 : TensorShape) (ss : list TensorShape) :
  buffers_ cached = b0 :: bs ->
  shapes_ cached = s0 :: ss ->
  exists k',
    UseCachedPrePackedWeight k cached 1 = Some (OK, true, k', destroy (packed_b_ k)) /\
    UseCachedPrePackedWeight k' cached 1 = Some (OK, true, k', []).
Proof.
  intros Hb Hs. unfold UseCachedPrePackedWeight. cbn [Z.eqb Pos.eqb].
  rewrite Hb, Hs. eexists. split; [reflexivity|].
  cbn [packed_b_ set_packed]. rewrite destroy_alias. reflexivity.
Qed.

End ComputeFacts.

(** * The kernel on concrete inputs *)

Import Instances.

(** ** Scenarios of the spec, run through the model of the GEMM *)

Example scenario_two_by_two :
  load (run_Z (Compute_float_Z (fresh_kernel false false 1)
                               (context (Some A22) (Some B22)))
              (store 100 [1; 2; 3; 4] (store 200 [5; 6; 7; 8] (fun _ => 77))))
       9000 4
  = [19; 22; 43; 50].
Proof. reflexivity. Qed.

Example scenario_dot_product :
  load (run_Z (Compute_float_Z (fresh_kernel true true 1)
                               (context (Some A3) (Some B3)))
              (store 100 [1; 2; 3] (store 200 [4; 5; 6] (fun _ => 77))))
       9000 1
  = [32].
Proof. reflexivity. Qed.

Example scenario_broadcast_shape :
  HelperModel.resolve [1; 3; 4; 5] [2; 1; 5; 6] false false =
  ResolveOK (mkHelper 4 6 5 [2; 3; 4; 6]
               [(0, 0, 0); (20, 0, 24); (40, 0, 48);
                (0, 30, 72); (20, 30, 96); (40, 30, 120)]).
Proof. reflexivity. Qed.

(** ** C1 *)

(** From opset 13 on, each of the six element types has a kernel. *)
Example every_type_is_registered :
  map (lookup 13) [Float32; Float64; Int32; UInt32; Int64; UInt64] =
  [Some MatMul_float_class; Some MatMul_double_class;
   Some MatMul_int32_t_class; Some MatMul_int32_t_class;
   Some MatMul_int64_t_class; Some MatMul_int64_t_class] /\
  map (lookup 8) [Float32; Float64; Int32; UInt32; Int64; UInt64] =
  [Some MatMul_float_class; Some MatMul_double_class; None; None; None; None].
Proof. split; reflexivity. Qed.

(** At opset 13 float64 is registered to [MatMul<double>], which runs the
    primary template: with transB set, A of shape [2;3] and B of shape
    [4;3], the full path multiplies (K = 3 on both sides once B is
    transposed) while the float64 kernel resolves the shapes untransposed
    and fails. *)
Lemma float64_runs_the_plain_path :
  lookup 13 Float64 = Some MatMul_double_class /\
  Compute_Z MatMul_double_class (fresh_kernel false true 2)
            (context (Some A23) (Some B43))
  = Some (Fail ShapeMismatch,
          [CallInput 0; CallInput 1;
           CallHelperCompute [2; 3] [4; 3] false false]) /\
  Compute_float_Z (fresh_kernel false true 2) (context (Some A23) (Some B43))
  = Some (OK,
          [CallInput 0; CallInput 1;
           CallHelperCompute [2; 3] [4; 3] false true;
           CallOutput 0 [2; 4];
           CallMlasGemmBatch CblasNoTrans CblasTrans 2 4 3
             [mkParams 100 3 200 3 9000 4 2 0 false] 1 7]) /\
  Compute_Z MatMul_double_class (fresh_kernel false true 2)
            (context (Some A23) (Some B43))
  <> Compute_float_Z (fresh_kernel false true 2) (context (Some A23) (Some B43)).
Proof. repeat split. discriminate. Qed.

Lemma Compute_path_of_element_type_witness :
  lookup 13 Float64 = Some MatMul_double_class /\
  Compute_Z MatMul_double_class (fresh_kernel false true 2)
            (context (Some A22) (Some B22))
  = Some (OK, [CallInput 0; CallInput 1;
               CallHelperCompute [2; 2] [2; 2] false false;
               CallOutput 0 [2; 2];
               CallMatMul 2 2 2 100 200 9000 7]).
Proof.
  split; [reflexivity|].
  destruct (Compute_path_of_element_type Z 0 HelperModel.resolve
              13 Float64 MatMul_double_class (fresh_kernel false true 2)
              (context (Some A22) (Some B22)) eq_refl) as [_ Hplain].
  destruct (Hplain ltac:(discriminate)) as (_ & _ & Hpath).
  unfold Compute_Z. rewrite (Hpath A22 B22 eq_refl eq_refl). reflexivity.
Defined.

(** ** C2 *)

Lemma packed_Compute_ignores_raw_B_witness :
  is_set (packed_b_ adopted_kernel) = true /\
  Compute_float_Z adopted_kernel (context (Some A22) None)
  = Some (OK, [CallInput 0;
               CallHelperCompute [2; 2] [2; 2] false false;
               CallOutput 0 [2; 2];
               CallMlasGemmBatch CblasNoTrans CblasNoTrans 2 2 2
                 [mkParams 100 2 4096 2 9000 2 1 0 true] 1 7]) /\
  Compute_float_Z adopted_kernel (context (Some A22) (Some B43))
  = Compute_float_Z adopted_kernel (context (Some A22) None).
Proof.
  split; [reflexivity|]. split; [reflexivity|].
  destruct (packed_Compute_ignores_raw_B Z 0 HelperModel.resolve adopted_kernel
              (context (Some A22) None) OK _ eq_refl eq_refl)
    as (_ & _ & _ & _ & Hsame).
  apply Hsame. repeat split.
Defined.

(** ** C3 *)

(** C3, at K = 2^31.  A is not transposed, so the leading dimension of A
    should be K = 2147483648; the cast through [int] on line 191 makes it
    18446744071562067968. *)
Theorem lda_is_truncated_through_int :
  Compute_float_Z (fresh_kernel false false 1)
                  (context (Some A_wide) (Some B_tall))
  = Some (OK,
          [CallInput 0; CallInput 1;
           CallHelperCompute [1; 2147483648] [2147483648; 1] false false;
           CallOutput 0 [1; 1];
           CallMlasGemmBatch CblasNoTrans CblasNoTrans 1 1 2147483648
             [mkParams 100 18446744071562067968 200 1 9000 1 1 0 false] 1 7]).
Proof. reflexivity. Qed.

(** ** C4 *)

Lemma empty_output_skips_multiplication_witness :
  Compute_generic_Z (context (Some A03) (Some B32))
  = Some (OK, [CallInput 0; CallInput 1;
               CallHelperCompute [0; 3] [3; 2] false false;
               CallOutput 0 [0; 2]]) /\
  Compute_float_Z (fresh_kernel false false 1) (context (Some A03) (Some B32))
  = Some (OK, [CallInput 0; CallInput 1;
               CallHelperCompute [0; 3] [3; 2] false false;
               CallOutput 0 [0; 2]]).
Proof.
  destruct (empty_output_skips_multiplication Z 0 HelperModel.resolve)
    as [Hgeneric Hfloat].
  unfold Compute_generic_Z, Compute_float_Z.
  split.
  - destruct (Hgeneric (context (Some A03) (Some B32)) A03 B32
                (mkHelper 0 2 3 [0; 2] [(0, 0, 0)])
                eq_refl eq_refl eq_refl eq_refl) as (log & -> & -> & _).
    reflexivity.
  - destruct (Hfloat (fresh_kernel false false 1) (context (Some A03) (Some B32))
                A03 (mkHelper 0 2 3 [0; 2] [(0, 0, 0)])
                eq_refl eq_refl eq_refl) as (log & -> & -> & _).
    reflexivity.
Defined.

(** ** C5 *)


(** The same multiplication from two memories that differ in the output
    buffer only. *)
Example prior_contents_do_not_show :
  load (run_Z (Compute_float_Z (fresh_kernel false false 1)
                               (context (Some A22) (Some B22)))
              (store 100 [1; 2; 3; 4] (store 200 [5; 6; 7; 8] (fun _ => 77))))
       9000 4
  = load (run_Z (Compute_float_Z (fresh_kernel false false 1)
                                 (context (Some A22) (Some B22)))
                (store 100 [1; 2; 3; 4] (store 200 [5; 6; 7; 8] (fun _ => -5))))
         9000 4.
Proof. reflexivity. Qed.

(** ** C6 *)

Lemma vector_operands_are_not_transposed_witness :
  Input (context (Some A3) (Some B3)) 0 = Some A3 /\
  Compute_float_Z (fresh_kernel true true 1) (context (Some A3) (Some B3))
  = Some (OK, [CallInput 0; CallInput 1;
               CallHelperCompute [3] [3] false false;
               CallOutput 0 [];
               CallMlasGemmBatch CblasNoTrans CblasNoTrans 1 1 3
                 [mkParams 100 3 200 1 9000 1 1 0 false] 1 7]) /\
  forall l r ta tb,
    In (CallHelperCompute l r ta tb)
       [CallInput 0; CallInput 1;
        CallHelperCompute [3] [3] false false;
        CallOutput 0 [];
        CallMlasGemmBatch CblasNoTrans CblasNoTrans 1 1 3
          [mkParams 100 3 200 1 9000 1 1 0 false] 1 7] ->
    l = [3] /\ (NumDimensions l = 1 -> ta = false).
Proof.
  split; [reflexivity|]. split; [reflexivity|].
  intros l r ta tb Hin.
  destruct (vector_operands_are_not_transposed Z 0 HelperModel.resolve
              (fresh_kernel true true 1) (context (Some A3) (Some B3)) A3 OK _
              eq_refl eq_refl) as (_ & _ & Hhelper & _).
  destruct (Hhelper l r ta tb Hin) as (Hl & _ & Hta & _).
  split; [exact Hl|exact Hta].
Defined.

(** ** C7 *)

(** An instance adopts a cached buffer and is then asked to pack input 0:
    [is_packed] comes back false, yet [Compute] stays on the packed path
    (input 1 is not requested, the descriptor is marked packed). *)
Lemma PrePack_declined_yet_packed_path :
  UseCachedPrePackedWeight (fresh_kernel false false 1) cached_record 1
  = Some (OK, true, adopted_kernel, []) /\
  PrePack_Z adopted_kernel A22 0 None (Some 3%nat)
  = (OK, false, adopted_kernel, None) /\
  Compute_float_Z adopted_kernel (context (Some A22) (Some B22))
  = Some (OK, [CallInput 0;
               CallHelperCompute [2; 2] [2; 2] false false;
               CallOutput 0 [2; 2];
               CallMlasGemmBatch CblasNoTrans CblasNoTrans 2 2 2
                 [mkParams 100 2 4096 2 9000 2 1 0 true] 1 7]).
Proof. repeat split. Qed.

Lemma PrePack_succeeds_and_falls_back_witness :
  PrePack_Z (fresh_kernel false false 1) (mkTensor [5; 2; 2] 200) 1 None (Some 3%nat)
  = (OK, false, fresh_kernel false false 1, None) /\
  In (CallInput 1)
     [CallInput 0; CallInput 1;
      CallHelperCompute [2; 2] [2; 2] false false;
      CallOutput 0 [2; 2];
      CallMlasGemmBatch CblasNoTrans CblasNoTrans 2 2 2
        [mkParams 100 2 200 2 9000 2 1 0 false] 1 7].
Proof.
  destruct (PrePack_succeeds_and_falls_back Z 0 HelperModel.resolve
              (GemmPackBFp32_model 4096) (fresh_kernel false false 1)
              (mkTensor [5; 2; 2] 200) 1 None (Some 3%nat))
    as (is_packed & k' & w' & Hcall & _ & _ & Hfallback).
  change (PrePack_Z (fresh_kernel false false 1) (mkTensor [5; 2; 2] 200) 1 None
                    (Some 3%nat) = (OK, is_packed, k', w')) in Hcall.
  injection Hcall as <- <- <-.
  split; [reflexivity|].
  destruct (Hfallback eq_refl) as (_ & _ & _ & _ & _ & _ & _ & Hsame & Hraw).
  exact (proj1 (Hraw (fun _ => eq_refl) eq_refl
                     (context (Some A22) (Some B22)) OK _ eq_refl)).
Defined.

(** ** C8 *)

(** With a record that already holds a buffer (address 555), the buffer
    just packed (address 4096) becomes the second buffer of the record,
    and the instance aliases the first. *)
Lemma PrePack_alias_is_first_buffer :
  PrePack_Z (fresh_kernel false false 1) B22 1 (Some used_record) (Some 3%nat)
  = (OK, true,
     mkMatMul false false 1 (mkBufferUniquePtr 555 (mkBufferDeleter None)) [2; 2],
     Some (mkPrepackedWeight
             [mkBufferUniquePtr 555 (mkBufferDeleter (Some 1%nat));
              mkBufferUniquePtr 4096 (mkBufferDeleter (Some 3%nat))]
             [[1; 1]; [2; 2]] [1; 4] true)).
Proof. reflexivity. Qed.

Lemma PrePack_donates_packed_buffer_witness :
  PrePack_Z (fresh_kernel false false 1) B22 1 (Some empty_record) (Some 3%nat)
  = (OK, true,
     mkMatMul false false 1 (mkBufferUniquePtr 4096 (mkBufferDeleter None)) [2; 2],
     Some (mkPrepackedWeight
             [mkBufferUniquePtr 4096 (mkBufferDeleter (Some 3%nat))]
             [[2; 2]] [4] true)).
Proof.
  destruct (PrePack_donates_packed_buffer Z (GemmPackBFp32_model 4096)
              (fresh_kernel false false 1) B22 empty_record (Some 3%nat)
              (mkBufferUniquePtr 4096 (mkBufferDeleter (Some 3%nat))) [2; 2]
              eq_refl) as (k' & w' & Hcall & _).
  change (PrePack_Z (fresh_kernel false false 1) B22 1 (Some empty_record)
                    (Some 3%nat) = (OK, true, k', Some w')) in Hcall.
  rewrite Hcall. injection Hcall as <- <-. reflexivity.
Defined.

(** ** C9 *)

Lemma UseCachedPrePackedWeight_adopts_witness :
  UseCachedPrePackedWeight (fresh_kernel true false 2) cached_record 1
  = Some (OK, true,
          mkMatMul true false 2 (mkBufferUniquePtr 4096 (mkBufferDeleter None)) [2; 2],
          []).
Proof.
  destruct (UseCachedPrePackedWeight_adopts Z (fresh_kernel true false 2)
              cached_record
              (mkBufferUniquePtr 4096 (mkBufferDeleter (Some 3%nat))) []
              [2; 2] [] eq_refl eq_refl) as (k' & Hcall & _).
  rewrite Hcall. injection Hcall as <-. reflexivity.
Defined.

(** ** C10 *)

(** An empty record, even one marked filled, makes the call read past the
    end of its vectors. *)
Example UseCachedPrePackedWeight_on_empty_record :
  UseCachedPrePackedWeight (fresh_kernel false false 1)
                           (mkPrepackedWeight [] [] [] true) 1 = None /\
  UseCachedPrePackedWeight (fresh_kernel false false 1)
                           (mkPrepackedWeight [] [] [] true) 0
  = Some (OK, false, fresh_kernel false false 1, []).
Proof. split; reflexivity. Qed.

(** * The further properties on concrete inputs *)

Import MoreInstances.

Lemma batch_size_is_descriptor_count_witness :
  Compute_float_Z (fresh_kernel false false 1) (context (Some A22) (Some B22))
  = Some (OK, log22) /\
  1 = Z.of_nat (length [descriptor22]).
Proof.
  split; [reflexivity|].
  exact (proj1 (batch_size_is_descriptor_count Z 0 HelperModel.resolve
                  (fresh_kernel false false 1) (context (Some A22) (Some B22))
                  OK log22 CblasNoTrans CblasNoTrans 2 2 2 [descriptor22] 1 7
                  eq_refl (or_intror (or_intror (or_intror (or_intror
                     (or_introl eq_refl))))))).
Defined.

Lemma descriptors_for_int_sized_dims_witness :
  Compute_float_Z (fresh_kernel false false 1) (context (Some A22) (Some B22))
  = Some (OK, log22) /\
  lda descriptor22 = 2 /\ ldb descriptor22 = 2 /\ ldc descriptor22 = 2.
Proof.
  split; [reflexivity|].
  destruct (descriptors_for_int_sized_dims Z 0 HelperModel.resolve
              (fresh_kernel false false 1) (context (Some A22) (Some B22))
              A22 helper22 OK log22 CblasNoTrans CblasNoTrans 2 2 2
              [descriptor22] 1 7 0 descriptor22
              eq_refl eq_refl ltac:(cbn; lia) ltac:(cbn; lia) ltac:(cbn; lia)
              eq_refl
              (or_intror (or_intror (or_intror (or_intror (or_introl eq_refl)))))
              eq_refl)
    as (_ & _ & _ & _ & _ & _ & Hlda & _ & _ & Hldb & _ & Hldc & _).
  repeat split; assumption.
Defined.

Lemma leading_dimension_exact_iff_int_sized_witness :
  Compute_float_Z (fresh_kernel false false 1)
                  (context (Some A_wide) (Some B_tall))
  = Some (OK, log_wide) /\
  (lda descriptor_wide = 2147483648 <-> 2147483648 < 2 ^ 31) /\
  (ldb descriptor_wide = 1 <-> 1 < 2 ^ 31).
Proof.
  split; [reflexivity|].
  destruct (leading_dimension_exact_iff_int_sized Z 0 HelperModel.resolve
              (fresh_kernel false false 1) (context (Some A_wide) (Some B_tall))
              A_wide helper_wide OK log_wide CblasNoTrans CblasNoTrans
              1 1 2147483648 [descriptor_wide] 1 7 0 descriptor_wide
              eq_refl eq_refl ltac:(cbn; lia) ltac:(cbn; lia) ltac:(cbn; lia)
              eq_refl
              (or_intror (or_intror (or_intror (or_intror (or_introl eq_refl)))))
              eq_refl)
    as (Hlda & Hldb & _).
  split; assumption.
Defined.

Lemma Compute_float_without_raw_B_witness :
  Compute_float_Z stale_kernel (context (Some A23) None)
  = Some (OK,
          [CallInput 0; CallInput 1;
           CallHelperCompute [2; 3] [3; 2] false false;
           CallOutput 0 [2; 2];
           CallMlasGemmBatch CblasNoTrans CblasNoTrans 2 2 3
             [mkParams 100 3 0 2 9000 2 1 0 false] 1 7]).
Proof.
  destruct (Compute_float_without_raw_B Z 0 HelperModel.resolve stale_kernel
              (context (Some A23) None) A23 eq_refl eq_refl eq_refl)
    as (st & log & H & _).
  unfold Compute_float_Z. rewrite H. injection H as <- <-. reflexivity.
Defined.

Lemma setup_preserves_attributes_witness :
  setup (GemmPackBFp32_model 4096) (fresh_kernel true false 2)
        (mkMatMul true false 2 (mkBufferUniquePtr 4096 (mkBufferDeleter None)) [2; 2]) /\
  trans_a_attr_
    (mkMatMul true false 2 (mkBufferUniquePtr 4096 (mkBufferDeleter None)) [2; 2])
  = true.
Proof.
  assert (Hsetup :
    setup (GemmPackBFp32_model 4096) (fresh_kernel true false 2)
      (mkMatMul true false 2 (mkBufferUniquePtr 4096 (mkBufferDeleter None)) [2; 2])).
  { eapply setup_more.
    - eapply (step_UseCached Z (GemmPackBFp32_model 4096)
                (fresh_kernel true false 2) cached_record 1). reflexivity.
    - eapply setup_more; [|apply setup_done].
      eapply (step_PrePack Z (GemmPackBFp32_model 4096) _ A22 0 None (Some 3%nat)).
      reflexivity. }
  split; [exact Hsetup|].
  exact (proj1 (setup_preserves_attributes Z (GemmPackBFp32_model 4096) _ _ Hsetup)).
Defined.

Lemma donate_then_adopt_witness :
  PrePack_Z (fresh_kernel false false 1) B22 1 (Some empty_record) (Some 3%nat)
  = (OK, true, adopted_kernel, Some cached_record) /\
  UseCachedPrePackedWeight (fresh_kernel false false 1) cached_record 1
  = Some (OK, true, adopted_kernel, []).
Proof.
  destruct (donate_then_adopt Z 0 HelperModel.resolve (GemmPackBFp32_model 4096)
              (fresh_kernel false false 1) (fresh_kernel false false 1)
              B22 empty_record (Some 3%nat)
              (mkBufferUniquePtr 4096 (mkBufferDeleter (Some 3%nat))) [2; 2]
              eq_refl eq_refl eq_refl)
    as (k1' & w' & k2' & Hdonate & Hadopt & _).
  change (PrePack_Z (fresh_kernel false false 1) B22 1 (Some empty_record)
                    (Some 3%nat) = (OK, true, k1', Some w')) in Hdonate.
  split.
  - rewrite Hdonate. injection Hdonate as <- <-. reflexivity.
  - injection Hdonate as <- <-. pose proof Hadopt as Hk2.
    injection Hk2 as <-. exact Hadopt.
Defined.

Lemma adopted_path_iff_buffer_not_null_witness :
  UseCachedPrePackedWeight (fresh_kernel false false 1) cached_record 1
  = Some (OK, true, adopted_kernel, []) /\
  ~ In (CallInput 1)
       [CallInput 0;
        CallHelperCompute [2; 2] [2; 2] false false;
        CallOutput 0 [2; 2];
        CallMlasGemmBatch CblasNoTrans CblasNoTrans 2 2 2
          [mkParams 100 2 4096 2 9000 2 1 0 true] 1 (7 : nat)].
Proof.
  destruct (adopted_path_iff_buffer_not_null Z 0 HelperModel.resolve
              (fresh_kernel false false 1) cached_record
              (mkBufferUniquePtr 4096 (mkBufferDeleter (Some 3%nat))) []
              [2; 2] [] eq_refl eq_refl) as (k' & Hadopt & Hpath).
  split.
  - rewrite Hadopt. injection Hadopt as <-. reflexivity.
  - injection Hadopt as <-.
    destruct (Hpath (context (Some A22) (Some B22)) OK _ eq_refl) as [Hiff _].
    intros Hin. apply Hiff in Hin. discriminate Hin.
Defined.

Lemma float_path_agrees_with_generic_path_witness :
  Compute_float_Z (fresh_kernel false false 1) (context (Some A22) (Some B22))
  = Some (OK, log22) /\
  Compute_generic_Z (context (Some A22) (Some B22)) = Some (OK, generic_log22) /\
  flat_map operands log22 = flat_map operands generic_log22.
Proof.
  destruct (float_path_agrees_with_generic_path Z 0 HelperModel.resolve
              (fresh_kernel false false 1) (context (Some A22) (Some B22))
              A22 B22 eq_refl eq_refl eq_refl eq_refl eq_refl)
    as (st & lf & lg & Hf & Hg & _ & Hops).
  injection Hf as <- <-. injection Hg as <-.
  split; [reflexivity|]. split; [reflexivity|]. exact Hops.
Defined.

Lemma packing_changes_only_B_witness :
  modulo_B
    [CallInput 0;
     CallHelperCompute [2; 2] [2; 2] false false;
     CallOutput 0 [2; 2];
     CallMlasGemmBatch CblasNoTrans CblasNoTrans 2 2 2
       [mkParams 100 2 4096 2 9000 2 1 0 true] 1 (7 : nat)]
  = modulo_B log22.
Proof.
  exact (proj2 (packing_changes_only_B Z 0 HelperModel.resolve
                  (fresh_kernel false false 1) adopted_kernel
                  (context (Some A22) (Some B22)) (context (Some A22) None) B22
                  eq_refl eq_refl eq_refl eq_refl eq_refl eq_refl eq_refl
                  (conj eq_refl (conj (fun _ _ => eq_refl) eq_refl)))).
Defined.

Lemma generic_multiply_arguments_witness :
  Compute_generic_Z (context (Some A22) (Some B22)) = Some (OK, generic_log22) /\
  (2 = 2 <-> - 2 ^ 31 <= 2 < 2 ^ 31).
Proof.
  split; [reflexivity|].
  exact (proj1 (generic_multiply_arguments Z HelperModel.resolve
                  (context (Some A22) (Some B22)) A22 B22 helper22 OK
                  generic_log22 2 2 2 100 200 9000 7
                  eq_refl eq_refl eq_refl eq_refl
                  (or_intror (or_intror (or_intror (or_intror
                     (or_introl eq_refl))))))).
Defined.

Lemma PrePack_without_packing_is_invisible_witness :
  PrePack_Z stale_kernel (mkTensor [5; 2; 2] 200) 1 None (Some 3%nat)
  = (OK, false, stale_kernel, None) /\
  Compute_float_Z stale_kernel (context (Some A22) (Some B22)) = Some (OK, log22).
Proof.
  destruct (PrePack_without_packing_is_invisible Z 0 HelperModel.resolve
              (GemmPackBFp32_model 4096) stale_kernel (mkTensor [5; 2; 2] 200)
              1 None (Some 3%nat) eq_refl (fun _ => eq_refl))
    as (p & k' & w' & Hcall & Hsame).
  change (PrePack_Z stale_kernel (mkTensor [5; 2; 2] 200) 1 None (Some 3%nat)
          = (OK, p, k', w')) in Hcall.
  split; [rewrite Hcall|]; injection Hcall as <- <- <-; [reflexivity|].
  destruct (Hsame eq_refl) as [_ Hcompute].
  unfold Compute_float_Z.
  rewrite <- (Hcompute (context (Some A22) (Some B22)) B22 eq_refl). reflexivity.
Defined.

Lemma adoption_is_idempotent_witness :
  UseCachedPrePackedWeight adopted_kernel cached_record 1
  = Some (OK, true, adopted_kernel, []).
Proof.
  destruct (adoption_is_idempotent Z (fresh_kernel false false 1) cached_record
              (mkBufferUniquePtr 4096 (mkBufferDeleter (Some 3%nat))) []
              [2; 2] [] eq_refl eq_refl) as (k' & Hfirst & Hsecond).
  injection Hfirst as <-. exact Hsecond.
Defined.
